(** * Call recording and transcript pipeline: a shallow embedding

    The Python sources [agent.py] and [process_recording.py] are glue
    around external services (room management, egress recording, object
    storage, speech-to-text, an outbound webhook).  They are embedded here
    as functions in a state-and-exception monad over a [World] made of the
    local filesystem and the trace of everything the program asked of the
    outside (log records, sleeps, requests), in program order.  The
    external services are oracles: every statement below is quantified
    over what they answer.  No function here asks the same thing of a
    service twice, so an answer is a function of the request alone. *)

From Stdlib Require Import QArith Ascii String DecimalString.
From stdpp Require Import gmap strings list.

Open Scope string_scope.
Set Warnings "-register-all".
Set Default Proof Using "Type".

(** ** The Python runtime, as far as the sources use it *)

(** Instances of Python's [Exception] class (what [except Exception]
    catches): the class name and [str(e)]. *)
Record exn := Exn { exn_class : string; exn_str : string }.

Inductive outcome (A : Type) : Type :=
| Return (a : A)
| Raise (e : exn).
Arguments Return {A} a.
Arguments Raise {A} e.

Inductive level := INFO | WARNING | ERROR.

Definition bytes := list Byte.byte.

(** JSON values as [json.loads] and [request.json()] give them: [None],
    [bool], [int], [float], [str], [list] and [dict]; a dict is an
    association list read front to back. *)
Inductive json :=
| JNull
| JBool (b : bool)
| JInt (z : Z)
| JFloat (q : Q)
| JStr (s : string)
| JList (l : list json)
| JObj (kvs : list (string * json)).

(** The request types of the LiveKit API that [agent.py] builds. *)
Record S3Upload := {
  access_key : string;
  secret : string;
  bucket : string;
  region : string;
  endpoint : string;
  force_path_style : bool
}.

Record EncodedFileOutput := {
  filepath : string;
  s3 : S3Upload
}.

Record RoomCompositeEgressRequest := {
  room_name : string;
  audio_only : bool;
  file_outputs : list EncodedFileOutput
}.

(** The speech-to-text request options that [process_recording.py] builds. *)
Record RecognitionConfig := {
  encoding : string;
  sample_rate_hertz : Z;
  language_code : string;
  enable_automatic_punctuation : bool
}.

Record PrerecordedOptions := {
  model : string;
  smart_format : bool;
  punctuate : bool
}.

(** What the program does to the outside, in order: a call of a logger
    method, a line printed, a wait, a request to an external service. *)
Inductive event :=
| Log (logger : string) (lvl : level) (msg : string)
| Print (line : string)
| Sleep (seconds : Q)
| DeleteRoom (room : string)
| StartRoomCompositeEgress (req : RoomCompositeEgressRequest)
| S3DownloadFile (s3_bucket key filename : string)
| OpenAITranscriptionsCreate (whisper_model : string) (file : bytes)
    (response_format : string)
| GoogleRecognize (config : RecognitionConfig) (content : bytes)
| DeepgramTranscribeFile (buffer : bytes) (options : PrerecordedOptions)
| HttpPost (url : string) (json_body : json) (timeout : Q).

(** The local filesystem: what is at each path. *)
Inductive node :=
| File (content : bytes)
| Dir.

Record World := {
  fs : gmap string node;
  trace : list event
}.

Definition set_fs (f : gmap string node) (w : World) : World :=
  {| fs := f; trace := trace w |}.

Definition add_event (ev : event) (w : World) : World :=
  {| fs := fs w; trace := trace w ++ [ev] |}.

(** *** The monad: state passing over [World], with exceptions *)

Definition M (A : Type) : Type := World -> outcome A * World.

Definition ret {A} (a : A) : M A := fun w => (Return a, w).

Definition raise {A} (e : exn) : M A := fun w => (Raise e, w).

Definition bind {A B} (m : M A) (k : A -> M B) : M B :=
  fun w =>
    match m w with
    | (Return a, w1) => k a w1
    | (Raise e, w1) => (Raise e, w1)
    end.

Notation "'let*' x ':=' m 'in' k" := (bind m (fun x => k))
  (at level 10, x name, m at level 100, k at level 200).
Notation "m '>>' k" := (bind m (fun _ => k))
  (at level 100, k at level 200, right associativity).

(** [try: body  except Exception as e: handler e] *)
Definition try_except {A} (body : M A) (handler : exn -> M A) : M A :=
  fun w =>
    match body w with
    | (Return a, w1) => (Return a, w1)
    | (Raise e, w1) => handler e w1
    end.

(** [try: body  finally: final].  The final block always runs; an
    exception of its own replaces the outcome of the body. *)
Definition try_finally {A} (body : M A) (final : M unit) : M A :=
  fun w =>
    match body w with
    | (r, w1) =>
        match final w1 with
        | (Return _, w2) => (r, w2)
        | (Raise e, w2) => (Raise e, w2)
        end
    end.

Definition emit (ev : event) : M unit := fun w => (Return tt, add_event ev w).

(** A request to an external service: the request is recorded, then the
    service answers or raises. *)
Definition call {A} (ev : event) (answer : outcome A) : M A :=
  fun w => (answer, add_event ev w).

(** [await asyncio.sleep(seconds)] *)
Definition sleep (seconds : Q) : M unit := emit (Sleep seconds).

(** The events of a trace that are not log records or console output:
    the waits and the requests to external services. *)
Definition is_request (ev : event) : bool :=
  match ev with
  | Log _ _ _ | Print _ => false
  | _ => true
  end.

Definition requests (tr : list event) : list event := List.filter is_request tr.

Definition is_transcription (ev : event) : bool :=
  match ev with
  | OpenAITranscriptionsCreate _ _ _ | GoogleRecognize _ _
  | DeepgramTranscribeFile _ _ => true
  | _ => false
  end.

Definition is_http_post (ev : event) : bool :=
  match ev with
  | HttpPost _ _ _ => true
  | _ => false
  end.

(** *** Strings

    A [str] is a [string], character by character.  For text outside
    ASCII a [string] holds the UTF-8 bytes: comparison, concatenation and
    [replace] are the same on bytes and on characters; [len] and slices,
    which only two log lines of [deliver] use, count bytes here. *)

(** Truth value of a [str]: non-empty. *)
Definition str_truthy (s : string) : bool :=
  match s with
  | EmptyString => false
  | String _ _ => true
  end.

(** [str(n)] for a non-negative [int]. *)
Definition str_of_nat (n : nat) : string :=
  DecimalString.NilZero.string_of_uint (Nat.to_uint n).

(** [str(z)] for an [int]. *)
Definition str_of_Z (z : Z) : string :=
  DecimalString.NilZero.string_of_int (Z.to_int z).

(** [str(b)] for a [bool]. *)
Definition str_of_bool (b : bool) : string := if b then "True" else "False".

(** [new.join(c for c in s)] with [new] also before and after: what
    [s.replace("", new)] gives. *)
Fixpoint intersperse (new s : string) : string :=
  match s with
  | EmptyString => new
  | String c s' => new ++ String c (intersperse new s')
  end.

(** The scan of [str.replace]: left to right, every occurrence of [old]
    that does not overlap an earlier one is replaced by [new].  [skip]
    counts the characters of the current occurrence still to drop. *)
Fixpoint replace_scan (old new : string) (skip : nat) (s : string) : string :=
  match s with
  | EmptyString => EmptyString
  | String c s' =>
      match skip with
      | S k => replace_scan old new k s'
      | O =>
          if String.prefix old s
          then new ++ replace_scan old new (String.length old - 1) s'
          else String c (replace_scan old new 0 s')
      end
  end.

(** [s.replace(old, new)] *)
Definition py_replace (s old new : string) : string :=
  match old with
  | EmptyString => intersperse new s
  | String _ _ => replace_scan old new 0 s
  end.

(** [s[:n]] *)
Definition py_take (n : nat) (s : string) : string := String.substring 0 n s.

(** [sep.join(l)] *)
Fixpoint py_join (sep : string) (l : list string) : string :=
  match l with
  | [] => ""
  | [x] => x
  | x :: rest => x ++ sep ++ py_join sep rest
  end.

(** *** Paths and the filesystem *)

(** [PurePosixPath.__truediv__]: an absolute right operand replaces the
    left one; otherwise the two are joined by a slash. *)
Definition path_join (p q : string) : string :=
  match q with
  | String "/"%char _ => q
  | _ => p ++ "/" ++ q
  end.

(** [p.parent] for a path without a trailing slash: the text before the
    last slash, [/] above a top-level name, [.] for a bare name.  The scan
    runs on the reversed list of characters. *)
Fixpoint drop_to_slash (rev_chars : list ascii) : option (list ascii) :=
  match rev_chars with
  | [] => None
  | c :: rest => if Ascii.eqb c "/"%char then Some rest else drop_to_slash rest
  end.

Definition parent (p : string) : string :=
  match drop_to_slash (rev (list_ascii_of_string p)) with
  | None => "."
  | Some [] => "/"
  | Some cs => string_of_list_ascii (rev cs)
  end.

Definition os_error (cls text p : string) : exn :=
  Exn cls (text ++ ": '" ++ p ++ "'").

Definition FileNotFoundError (p : string) : exn :=
  os_error "FileNotFoundError" "[Errno 2] No such file or directory" p.
Definition FileExistsError (p : string) : exn :=
  os_error "FileExistsError" "[Errno 17] File exists" p.
Definition IsADirectoryError (p : string) : exn :=
  os_error "IsADirectoryError" "[Errno 21] Is a directory" p.

(** [p.mkdir(exist_ok=True)] (no [parents=True]): a directory that is
    already there is accepted; a file in its place, or a missing parent
    directory, raises. *)
Definition mkdir_exist_ok (p : string) : M unit :=
  fun w =>
    match fs w !! p with
    | Some Dir => (Return tt, w)
    | Some (File _) => (Raise (FileExistsError p), w)
    | None =>
        match fs w !! parent p with
        | Some Dir => (Return tt, set_fs (<[p := Dir]> (fs w)) w)
        | _ => (Raise (FileNotFoundError p), w)
        end
    end.

(** [p.exists()] *)
Definition exists_ (p : string) : M bool :=
  fun w => (Return (bool_decide (is_Some (fs w !! p))), w).

(** [p.unlink()] *)
Definition unlink (p : string) : M unit :=
  fun w =>
    match fs w !! p with
    | Some (File _) => (Return tt, set_fs (delete p (fs w)) w)
    | Some Dir => (Raise (IsADirectoryError p), w)
    | None => (Raise (FileNotFoundError p), w)
    end.

(** [open(p, "rb")] followed by reading the whole file. *)
Definition read_file (p : string) : M bytes :=
  fun w =>
    match fs w !! p with
    | Some (File c) => (Return c, w)
    | Some Dir => (Raise (IsADirectoryError p), w)
    | None => (Raise (FileNotFoundError p), w)
    end.

Definition is_file (w : World) (p : string) : Prop :=
  exists c, fs w !! p = Some (File c).

(** *** Values of unknown type *)

(** [bool(v)] *)
Definition truthy (v : json) : bool :=
  match v with
  | JNull => false
  | JBool b => b
  | JInt z => negb (z =? 0)%Z
  | JFloat q => negb (Qnum q =? 0)%Z
  | JStr s => str_truthy s
  | JList l => match l with [] => false | _ :: _ => true end
  | JObj kvs => match kvs with [] => false | _ :: _ => true end
  end.

(** [type(v).__name__] *)
Definition type_name (v : json) : string :=
  match v with
  | JNull => "NoneType"
  | JBool _ => "bool"
  | JInt _ => "int"
  | JFloat _ => "float"
  | JStr _ => "str"
  | JList _ => "list"
  | JObj _ => "dict"
  end.

(** [v == s] and [v != s] for a string literal [s]: only an equal [str]
    is equal to it. *)
Definition eq_str (v : json) (s : string) : bool :=
  match v with
  | JStr t => String.eqb t s
  | _ => false
  end.

Definition ne_str (v : json) (s : string) : bool := negb (eq_str v s).

Fixpoint assoc (key : string) (kvs : list (string * json)) : option json :=
  match kvs with
  | [] => None
  | (k, v) :: rest => if String.eqb k key then Some v else assoc key rest
  end.

Definition dict_get (key : string) (default : json)
    (kvs : list (string * json)) : json :=
  match assoc key kvs with
  | Some v => v
  | None => default
  end.

Definition AttributeError (v : json) (attr : string) : exn :=
  Exn "AttributeError"
    ("'" ++ type_name v ++ "' object has no attribute '" ++ attr ++ "'").

(** [d.get(key, default)]; [d.get(key)] is [d.get(key, None)].  Only a
    dict has the method. *)
Definition py_get (d : json) (key : string) (default : json) : M json :=
  match d with
  | JObj kvs => ret (dict_get key default kvs)
  | _ => raise (AttributeError d "get")
  end.

(** [v[0]] *)
Definition py_first (v : json) : M json :=
  match v with
  | JList (x :: _) => ret x
  | JList [] => raise (Exn "IndexError" "list index out of range")
  | JStr (String c _) => ret (JStr (String c EmptyString))
  | JStr EmptyString => raise (Exn "IndexError" "string index out of range")
  | JObj _ => raise (Exn "KeyError" "0")
  | _ => raise (Exn "TypeError"
                  ("'" ++ type_name v ++ "' object is not subscriptable"))
  end.

(** [str(v)], as an f-string renders [{v}].  How Python prints floats,
    lists and dicts is not modelled: [repr] stands for it. *)
Definition py_str (repr : json -> string) (v : json) : string :=
  match v with
  | JNull => "None"
  | JBool b => str_of_bool b
  | JInt z => str_of_Z z
  | JStr s => s
  | _ => repr v
  end.

(** * agent.py *)

Module Agent.

(** The module-level configuration, read from the environment at import. *)
Record Config := {
  ENABLE_RECORDING : bool;
  S3_BUCKET : string;
  S3_REGION : string;
  S3_ACCESS_KEY : string;
  S3_SECRET_KEY : string;
  S3_ENDPOINT : string
}.

(** What the code reads of a [JobContext]: [ctx.room.name]. *)
Record JobContext := { room : string }.

(** The LiveKit server behind [ctx.api], and the job the code runs in. *)
Record Services := {
  get_job_context : option JobContext;
  delete_room : string -> outcome unit;
  start_room_composite_egress : RoomCompositeEgressRequest -> outcome string
}.

Section Agent.

Variable cfg : Config.
Variable svc : Services.

Definition logger : string := "xai-telephony-agent".

Definition log (lvl : level) (msg : string) : M unit :=
  emit (Log logger lvl msg).

Definition hangup_call : M unit :=
  match get_job_context svc with
  | None => ret tt
  | Some ctx => call (DeleteRoom (room ctx)) (delete_room svc (room ctx))
  end.

Definition hang_up : M string :=
  log INFO "Hang up tool called - initiating call termination" >>
  sleep 0.5 >>
  hangup_call >>
  log INFO "Room deleted - call ended" >>
  sleep 2.0 >>
  ret "Call ended successfully".

(** The request that [start_recording] builds for the room [name]. *)
Definition egress_request (name : string) : RoomCompositeEgressRequest :=
  {| room_name := name;
     audio_only := true;
     file_outputs :=
       [ {| filepath := "calls/" ++ name ++ ".mp3";
            s3 := {| access_key := S3_ACCESS_KEY cfg;
                     secret := S3_SECRET_KEY cfg;
                     bucket := S3_BUCKET cfg;
                     region := S3_REGION cfg;
                     endpoint := S3_ENDPOINT cfg;
                     force_path_style := true |} |} ] |}.

(** The storage path that [start_recording] and [entrypoint] log for the
    room [name]. *)
Definition recording_path (name : string) : string :=
  "s3://" ++ S3_BUCKET cfg ++ "/calls/" ++ name ++ ".mp3".

(** [all([S3_BUCKET, S3_REGION, S3_ACCESS_KEY, S3_SECRET_KEY])] *)
Definition credentials_complete : bool :=
  forallb str_truthy
    [S3_BUCKET cfg; S3_REGION cfg; S3_ACCESS_KEY cfg; S3_SECRET_KEY cfg].

Definition start_recording (ctx : JobContext) : M (option string) :=
  if negb (ENABLE_RECORDING cfg) then
    log INFO "Recording disabled - set ENABLE_RECORDING=true to enable" >>
    ret None
  else
    log INFO ("Recording enabled - checking credentials (bucket="
              ++ S3_BUCKET cfg ++ ")") >>
    if negb credentials_complete then
      log WARNING
        ("S3 credentials incomplete: bucket="
         ++ str_of_bool (str_truthy (S3_BUCKET cfg))
         ++ ", region=" ++ str_of_bool (str_truthy (S3_REGION cfg))
         ++ ", access_key=" ++ str_of_bool (str_truthy (S3_ACCESS_KEY cfg))
         ++ ", secret_key=" ++ str_of_bool (str_truthy (S3_SECRET_KEY cfg))) >>
      ret None
    else
      try_except
        (log INFO
           ("Starting egress recording to " ++ recording_path (room ctx)) >>
         let* egress_id :=
           call (StartRoomCompositeEgress (egress_request (room ctx)))
                (start_room_composite_egress svc (egress_request (room ctx))) in
         log INFO
           ("✅ Recording started successfully - Egress ID: " ++ egress_id) >>
         log INFO
           ("📁 File will be saved to: " ++ recording_path (room ctx)) >>
         ret (Some egress_id))
        (fun e =>
           log ERROR ("Failed to start recording: " ++ exn_str e) >>
           ret None).

End Agent.

End Agent.

(** * process_recording.py *)

Module ProcessRecording.

(** The module-level configuration, read from the environment at import. *)
Record Config := {
  S3_BUCKET : string;
  S3_REGION : string;
  S3_ACCESS_KEY : string;
  S3_SECRET_KEY : string;
  S3_ENDPOINT : string;
  STT_PROVIDER : string;
  OPENAI_API_KEY : string;
  GOOGLE_API_KEY : string;
  DEEPGRAM_API_KEY : string;
  TRANSCRIPT_WEBHOOK_URL : string
}.

(** The external collaborators.  The [_client] entries stand for the
    import of an SDK inside a function body and the construction of its
    client (both can raise, neither talks to the network); the others are
    network requests.  A download also changes the local filesystem, in
    any way the storage client likes.  Speech-to-text answers are kept as
    far as the code reads them: the text for OpenAI, the transcripts of
    the alternatives of each result for Google, and of each channel for
    Deepgram.  A POST answers with its status code. *)
Record Services := {
  boto3_client : string -> string -> string -> string -> outcome unit;
  download_file :
    string -> string -> string -> gmap string node ->
    outcome unit * gmap string node;
  openai_client : string -> outcome unit;
  openai_transcriptions_create : string -> bytes -> string -> outcome string;
  google_speech_client : outcome unit;
  google_recognize : RecognitionConfig -> bytes -> outcome (list (list string));
  deepgram_client : string -> outcome unit;
  deepgram_transcribe_file :
    bytes -> PrerecordedOptions -> outcome (list (list string));
  http_post : string -> json -> Q -> outcome Z
}.

(** Something local that can raise (an import, a constructor). *)
Definition construct {A} (answer : outcome A) : M A :=
  fun w => (answer, w).

(** A request whose answer comes with a new local filesystem. *)
Definition call_fs {A} (ev : event)
    (answer : gmap string node -> outcome A * gmap string node) : M A :=
  fun w => (fst (answer (fs w)), add_event ev (set_fs (snd (answer (fs w))) w)).

(** [[f(x) for x in l]] *)
Fixpoint for_each {A B} (f : A -> M B) (l : list A) : M (list B) :=
  match l with
  | [] => ret []
  | x :: rest =>
      let* y := f x in
      let* ys := for_each f rest in
      ret (y :: ys)
  end.

(** [l[0]] *)
Definition first {A} (l : list A) : M A :=
  match l with
  | x :: _ => ret x
  | [] => raise (Exn "IndexError" "list index out of range")
  end.

Section ProcessRecording.

Variable cfg : Config.
Variable svc : Services.

Definition logger : string := "recording-processor".

Definition log (lvl : level) (msg : string) : M unit :=
  emit (Log logger lvl msg).

(** The key that [download_from_s3] asks the storage for. *)
Definition object_key (s3_path : string) : string :=
  py_replace s3_path ("s3://" ++ S3_BUCKET cfg ++ "/") "".

Definition download_from_s3 (s3_path local_path : string) : M bool :=
  try_except
    (construct (boto3_client svc (S3_ACCESS_KEY cfg) (S3_SECRET_KEY cfg)
                  (S3_REGION cfg) (S3_ENDPOINT cfg)) >>
     let bucket := S3_BUCKET cfg in
     let key := object_key s3_path in
     log INFO ("Downloading from S3: " ++ bucket ++ "/" ++ key) >>
     call_fs (S3DownloadFile bucket key local_path)
             (download_file svc bucket key local_path) >>
     log INFO ("Downloaded to: " ++ local_path) >>
     ret true)
    (fun e =>
       log ERROR ("Failed to download from S3: " ++ exn_str e) >>
       ret false).

Definition transcribe_openai (audio_path : string) : M string :=
  try_except
    (construct (openai_client svc (OPENAI_API_KEY cfg)) >>
     log INFO ("Transcribing with OpenAI Whisper: " ++ audio_path) >>
     let* audio_file := read_file audio_path in
     let* text :=
       call (OpenAITranscriptionsCreate "whisper-1" audio_file "verbose_json")
            (openai_transcriptions_create svc "whisper-1" audio_file
               "verbose_json") in
     ret text)
    (fun e =>
       log ERROR ("OpenAI transcription failed: " ++ exn_str e) >>
       raise e).

Definition google_config : RecognitionConfig :=
  {| encoding := "MP3";
     sample_rate_hertz := 16000;
     language_code := "en-US";
     enable_automatic_punctuation := true |}.

Definition transcribe_google (audio_path : string) : M string :=
  try_except
    (construct (google_speech_client svc) >>
     log INFO ("Transcribing with Google STT: " ++ audio_path) >>
     let* content := read_file audio_path in
     let* results :=
       call (GoogleRecognize google_config content)
            (google_recognize svc google_config content) in
     let* texts := for_each first results in
     ret (py_join " " texts))
    (fun e =>
       log ERROR ("Google STT failed: " ++ exn_str e) >>
       raise e).

Definition deepgram_options : PrerecordedOptions :=
  {| model := "nova-2"; smart_format := true; punctuate := true |}.

Definition transcribe_deepgram (audio_path : string) : M string :=
  try_except
    (construct (deepgram_client svc (DEEPGRAM_API_KEY cfg)) >>
     log INFO ("Transcribing with Deepgram: " ++ audio_path) >>
     let* buffer_data := read_file audio_path in
     let* channels :=
       call (DeepgramTranscribeFile buffer_data deepgram_options)
            (deepgram_transcribe_file svc buffer_data deepgram_options) in
     let* alternatives := first channels in
     let* transcript := first alternatives in
     ret transcript)
    (fun e =>
       log ERROR ("Deepgram transcription failed: " ++ exn_str e) >>
       raise e).

(** The JSON body that [send_transcript_webhook] posts. *)
Definition payload (room_name transcript s3_path : string) : json :=
  JObj [ ("room_name", JStr room_name);
         ("transcript", JStr transcript);
         ("audio_file", JStr s3_path);
         ("stt_provider", JStr (STT_PROVIDER cfg)) ].

(** [httpx] is imported at the top of the module and [AsyncClient()] is
    built without arguments: entering and leaving the client are taken
    not to raise. *)
Definition send_transcript_webhook (room_name transcript s3_path : string)
    : M unit :=
  if negb (str_truthy (TRANSCRIPT_WEBHOOK_URL cfg)) then
    log INFO "No webhook URL configured"
  else
    try_except
      (let* status_code :=
         call (HttpPost (TRANSCRIPT_WEBHOOK_URL cfg)
                 (payload room_name transcript s3_path) 30.0)
              (http_post svc (TRANSCRIPT_WEBHOOK_URL cfg)
                 (payload room_name transcript s3_path) 30.0) in
       log INFO ("Webhook sent: " ++ str_of_Z status_code))
      (fun e => log ERROR ("Failed to send webhook: " ++ exn_str e)).

Definition temp_dir : string := "/tmp/livekit-recordings".

(** [temp_dir / f"{room_name}.mp3"]: the file
    [/tmp/livekit-recordings/<room_name>.mp3], unless the room name
    starts with a slash. *)
Definition local_path (room_name : string) : string :=
  path_join temp_dir (room_name ++ ".mp3").

(** The [finally] block of [process_recording]. *)
Definition cleanup (local_path : string) : M unit :=
  let* there := exists_ local_path in
  if there then
    unlink local_path >>
    log INFO ("Cleaned up temp file: " ++ local_path)
  else ret tt.

(** What follows a transcript in [process_recording]. *)
Definition deliver (s3_path room_name transcript : string) : M unit :=
  log INFO ("Transcript generated ("
            ++ str_of_nat (String.length transcript) ++ " chars)") >>
  log INFO ("Transcript: " ++ py_take 200 transcript ++ "...") >>
  send_transcript_webhook room_name transcript s3_path >>
  log INFO "Processing complete!".

(** The [try] block of [process_recording]; falling off its end stands
    for both [return] statements and for the normal end of the block. *)
Definition attempt (s3_path room_name local_path : string) : M unit :=
  let* downloaded := download_from_s3 s3_path local_path in
  if negb downloaded then
    log ERROR "Failed to download audio file"
  else if String.eqb (STT_PROVIDER cfg) "openai" then
    let* transcript := transcribe_openai local_path in
    deliver s3_path room_name transcript
  else if String.eqb (STT_PROVIDER cfg) "google" then
    let* transcript := transcribe_google local_path in
    deliver s3_path room_name transcript
  else if String.eqb (STT_PROVIDER cfg) "deepgram" then
    let* transcript := transcribe_deepgram local_path in
    deliver s3_path room_name transcript
  else
    log ERROR ("Unknown STT provider: " ++ STT_PROVIDER cfg).

Definition process_recording (s3_path room_name : string) : M unit :=
  log INFO ("Processing recording: " ++ s3_path) >>
  mkdir_exist_ok temp_dir >>
  try_finally
    (attempt s3_path room_name (local_path room_name))
    (cleanup (local_path room_name)).

(** The [__main__] block: [argv] is [sys.argv]. *)
Definition main (argv : list string) : M unit :=
  match argv with
  | _ :: room_name :: _ =>
      let s3_path :=
        "s3://" ++ S3_BUCKET cfg ++ "/calls/" ++ room_name ++ ".mp3" in
      process_recording s3_path room_name
  | _ =>
      emit (Print "Usage: python process_recording.py <room_name>") >>
      emit (Print "Or deploy as webhook handler for LiveKit egress events")
  end.

(** [handle_egress_webhook] reads values of any JSON type out of the
    payload and hands two of them to [process_recording].  It is stated
    over the function it calls, [callee], so that what it does with the
    payload reads off for every behaviour of the processor; [repr] is
    Python's rendering of floats, lists and dicts in the log lines. *)
Variable repr : json -> string.
Variable callee : json -> json -> M unit.

Definition handle_egress_webhook (webhook_data : json) : M unit :=
  let* event_type := py_get webhook_data "event" JNull in
  if ne_str event_type "egress_ended" then
    log INFO ("Ignoring event: " ++ py_str repr event_type)
  else
    let* egress_info := py_get webhook_data "egressInfo" (JObj []) in
    let* room_name := py_get egress_info "roomName" JNull in
    let* status := py_get egress_info "status" JNull in
    if ne_str status "EGRESS_COMPLETE" then
      log WARNING ("Egress not complete: " ++ py_str repr status)
    else
      let* file_results := py_get egress_info "fileResults" (JList []) in
      if negb (truthy file_results) then
        log ERROR "No file results in webhook"
      else
        let* file_info := py_first file_results in
        let* s3_path := py_get file_info "location" JNull in
        if negb (truthy s3_path) then
          log ERROR "No S3 path in file results"
        else
          log INFO ("Egress complete for room: " ++ py_str repr room_name) >>
          callee s3_path room_name.

End ProcessRecording.

End ProcessRecording.

(** * Vocabulary of the statements *)

(** [m] only adds events that satisfy [P] to the trace. *)
Definition emits {A} (P : event -> Prop) (m : M A) : Prop :=
  forall w r w', m w = (r, w') ->
    exists evs, trace w' = (trace w ++ evs)%list /\ Forall P evs.

(** Neither a speech-to-text request nor an HTTP POST. *)
Definition silent (ev : event) : Prop :=
  is_transcription ev = false /\ is_http_post ev = false.

Definition no_post (ev : event) : Prop := is_http_post ev = false.

Definition no_request (ev : event) : Prop := is_request ev = false.

(** [old] occurs in [s]. *)
Definition occurs (old s : string) : Prop :=
  exists a b, s = a ++ old ++ b.

(** Whether [old] occurs in [s], by trying every position. *)
Fixpoint occursb (old s : string) : bool :=
  match s with
  | EmptyString => String.prefix old EmptyString
  | String _ s' => String.prefix old s || occursb old s'
  end.


(** The provider integration that the [if]/[elif] chain of
    [process_recording] selects, if any. *)
Definition selected_integration (cfg : ProcessRecording.Config)
    (svc : ProcessRecording.Services) : option (string -> M string) :=
  if String.eqb (ProcessRecording.STT_PROVIDER cfg) "openai" then
    Some (ProcessRecording.transcribe_openai cfg svc)
  else if String.eqb (ProcessRecording.STT_PROVIDER cfg) "google" then
    Some (ProcessRecording.transcribe_google svc)
  else if String.eqb (ProcessRecording.STT_PROVIDER cfg) "deepgram" then
    Some (ProcessRecording.transcribe_deepgram cfg svc)
  else None.

(** [process_recording] has logged its first line and made sure of its
    temporary directory: [w1] is the state in which its [try] block
    starts. *)
Definition started (s3_path : string) (w w1 : World) : Prop :=
  mkdir_exist_ok ProcessRecording.temp_dir
    (add_event
       (Log ProcessRecording.logger INFO ("Processing recording: " ++ s3_path))
       w)
  = (Return tt, w1).

(** ** Concrete inputs *)

Module Examples.

Definition agent_cfg : Agent.Config :=
  {| Agent.ENABLE_RECORDING := true;
     Agent.S3_BUCKET := "recordings";
     Agent.S3_REGION := "eu-central-1";
     Agent.S3_ACCESS_KEY := "AK";
     Agent.S3_SECRET_KEY := "SK";
     Agent.S3_ENDPOINT := "https://storage.example/s3" |}.

Definition agent_cfg_no_secret : Agent.Config :=
  {| Agent.ENABLE_RECORDING := true;
     Agent.S3_BUCKET := "recordings";
     Agent.S3_REGION := "eu-central-1";
     Agent.S3_ACCESS_KEY := "AK";
     Agent.S3_SECRET_KEY := "";
     Agent.S3_ENDPOINT := "https://storage.example/s3" |}.

Definition ctx42 : Agent.JobContext := {| Agent.room := "room-42" |}.

(** A LiveKit server that answers every request. *)
Definition livekit_up : Agent.Services :=
  {| Agent.get_job_context := Some ctx42;
     Agent.delete_room := fun _ => Return tt;
     Agent.start_room_composite_egress := fun _ => Return "EG_1" |}.

(** A LiveKit server that refuses every request. *)
Definition livekit_down : Agent.Services :=
  {| Agent.get_job_context := Some ctx42;
     Agent.delete_room := fun _ => Raise (Exn "TwirpError" "unavailable");
     Agent.start_room_composite_egress :=
       fun _ => Raise (Exn "TwirpError" "unavailable") |}.


Definition cfg_with (provider url : string) : ProcessRecording.Config :=
  {| ProcessRecording.S3_BUCKET := "recordings";
     ProcessRecording.S3_REGION := "eu-central-1";
     ProcessRecording.S3_ACCESS_KEY := "AK";
     ProcessRecording.S3_SECRET_KEY := "SK";
     ProcessRecording.S3_ENDPOINT := "https://storage.example/s3";
     ProcessRecording.STT_PROVIDER := provider;
     ProcessRecording.OPENAI_API_KEY := "sk-test";
     ProcessRecording.GOOGLE_API_KEY := "";
     ProcessRecording.DEEPGRAM_API_KEY := "";
     ProcessRecording.TRANSCRIPT_WEBHOOK_URL := url |}.

(** Storage that writes the object to the requested file; speech-to-text
    that answers or not; a webhook that answers 200. *)
Definition services (stt_up : bool) : ProcessRecording.Services :=
  let stt {A} (a : A) : outcome A :=
    if stt_up then Return a else Raise (Exn "APIError" "service unavailable") in
  {| ProcessRecording.boto3_client := fun _ _ _ _ => Return tt;
     ProcessRecording.download_file :=
       fun _ _ filename f => (Return tt, <[filename := File []]> f);
     ProcessRecording.openai_client := fun _ => Return tt;
     ProcessRecording.openai_transcriptions_create := fun _ _ _ => stt "hello";
     ProcessRecording.google_speech_client := Return tt;
     ProcessRecording.google_recognize := fun _ _ => stt [["hello"]; ["world"]];
     ProcessRecording.deepgram_client := fun _ => Return tt;
     ProcessRecording.deepgram_transcribe_file := fun _ _ => stt [["hello"]];
     ProcessRecording.http_post := fun _ _ _ => Return 200%Z |}.

Definition url : string := "https://hooks.example/transcripts".

Definition s3_path : string := "s3://recordings/calls/room-42.mp3".

Definition cfg_openai : ProcessRecording.Config := cfg_with "openai" url.

Definition cfg_whisper : ProcessRecording.Config := cfg_with "whisper" url.

Definition up : ProcessRecording.Services := services true.

Definition down : ProcessRecording.Services := services false.

(** A machine with a [/tmp] directory and nothing else. *)
Definition fresh : World := {| fs := {[ "/tmp" := Dir ]}; trace := [] |}.

(** A stand-in for Python's rendering of floats, lists and dicts. *)
Definition repr (v : json) : string := "<" ++ type_name v ++ ">".

(** A processor that only prints how it was called. *)
Definition spy (s3_path room_name : json) : M unit :=
  emit (Print ("process_recording(" ++ py_str repr s3_path ++ ", "
               ++ py_str repr room_name ++ ")")).

(** The completion event of the egress of room [test], the same event
    without its [roomName], and the event of a failed egress. *)
Definition file_results : json :=
  JList [JObj [("location", JStr "s3://bucket/calls/test.mp3")]].

Definition egress_ended : json :=
  JObj [ ("event", JStr "egress_ended");
         ("egressInfo",
          JObj [ ("roomName", JStr "test");
                 ("status", JStr "EGRESS_COMPLETE");
                 ("fileResults", file_results) ]) ].

Definition egress_ended_no_room : json :=
  JObj [ ("event", JStr "egress_ended");
         ("egressInfo",
          JObj [ ("status", JStr "EGRESS_COMPLETE");
                 ("fileResults", file_results) ]) ].

Definition egress_failed : json :=
  JObj [ ("event", JStr "egress_ended");
         ("egressInfo",
          JObj [ ("roomName", JStr "test");
                 ("status", JStr "EGRESS_FAILED");
                 ("fileResults", file_results) ]) ].

End Examples.

(** * The environment

    Both modules read their configuration with [os.getenv] when they are
    imported; [env] is the environment at that moment, after
    [load_dotenv]. *)

Module Environment.

(** [os.getenv(key, default)]: a variable that is set wins, even when it is
    set to the empty string. *)
Definition getenv (env : gmap string string) (key default : string) : string :=
  match env !! key with
  | Some v => v
  | None => default
  end.

(** [c.lower()] for one ASCII character. *)
Definition lower_ascii (c : ascii) : ascii :=
  let n := nat_of_ascii c in
  if (65 <=? n)%nat && (n <=? 90)%nat then ascii_of_nat (n + 32) else c.

(** [s.lower()] on the ASCII letters of [s].  No character outside ASCII
    lowers to one of the letters of [true], so the test of
    [ENABLE_RECORDING] below is the test of the source. *)
Fixpoint lower (s : string) : string :=
  match s with
  | EmptyString => EmptyString
  | String c s' => String (lower_ascii c) (lower s')
  end.

Definition default_endpoint : string :=
  "https://rexdoyxjqixzchgaadum.storage.supabase.co/storage/v1/s3".

(** The globals of [agent.py]. *)
Definition agent_config (env : gmap string string) : Agent.Config :=
  {| Agent.ENABLE_RECORDING :=
       String.eqb (lower (getenv env "ENABLE_RECORDING" "false")) "true";
     Agent.S3_BUCKET := getenv env "S3_BUCKET" "";
     Agent.S3_REGION := getenv env "S3_REGION" "eu-central-1";
     Agent.S3_ACCESS_KEY := getenv env "ACCESS_SUPABASE" "";
     Agent.S3_SECRET_KEY := getenv env "SECRET_SUPABASE" "";
     Agent.S3_ENDPOINT := getenv env "ENDPOINT_SUPABASE" default_endpoint |}.

(** The globals of [process_recording.py]. *)
Definition processor_config (env : gmap string string)
    : ProcessRecording.Config :=
  {| ProcessRecording.S3_BUCKET := getenv env "S3_BUCKET" "";
     ProcessRecording.S3_REGION := getenv env "S3_REGION" "eu-central-1";
     ProcessRecording.S3_ACCESS_KEY := getenv env "ACCESS_SUPABASE" "";
     ProcessRecording.S3_SECRET_KEY := getenv env "SECRET_SUPABASE" "";
     ProcessRecording.S3_ENDPOINT :=
       getenv env "ENDPOINT_SUPABASE" default_endpoint;
     ProcessRecording.STT_PROVIDER := getenv env "STT_PROVIDER" "openai";
     ProcessRecording.OPENAI_API_KEY := getenv env "OPENAI_API_KEY" "";
     ProcessRecording.GOOGLE_API_KEY := getenv env "GOOGLE_API_KEY" "";
     ProcessRecording.DEEPGRAM_API_KEY := getenv env "DEEPGRAM_API_KEY" "";
     ProcessRecording.TRANSCRIPT_WEBHOOK_URL :=
       getenv env "TRANSCRIPT_WEBHOOK_URL" "" |}.

End Environment.

(** * agent.py: the agent and the entry point of a call *)

Module Entrypoint.

(** What [entrypoint] reads of the environment besides the globals of the
    recording starter: [AGENT_TIMEZONE], and [os.getenv("XAI_API_KEY")],
    which is [None] when the variable is not set. *)
Record Settings := {
  AGENT_TIMEZONE : string;
  XAI_API_KEY : option string
}.

(** The room, the clock and the voice session behind [entrypoint].  Each
    entry is what one call of the source answers: [ctx.connect()];
    [ZoneInfo(tz)], [datetime.now] and [strftime] together, for a time
    zone name; [RealtimeModel(voice, api_key)]; [AgentSession(llm)];
    [session.start(room, agent)], given the name of the room and the
    instructions of the agent; [update_instructions(instructions)] on the
    realtime session of the agent; [session.generate_reply()].  These
    calls leave no record in the trace, which keeps the log and the
    requests of the recording pipeline. *)
Record Session := {
  connect : outcome unit;
  local_time : string -> outcome string;
  realtime_model : string -> option string -> outcome unit;
  agent_session : outcome unit;
  session_start : string -> string -> outcome unit;
  update_instructions : string -> outcome unit;
  generate_reply : outcome unit
}.

(** The instructions that [Assistant.__init__] builds. *)
Definition instructions (time_str timezone : string) : string :=
  "You are playful & mischievous and on a phone call, your name is Rachel.
Your responses should be conversational and without any complex formatting or punctuation
including emojis, asterisks, or other symbols.
When the user says goodbye or wants to end the call, use the hang_up tool.
Keep the responses short (under like 60 words).
You're allowed to speak other languages, especially Polish, Spanish & German.
You may insert things like [laughter], [whisper] during correct moments in the conversation.

IMPORTANT: The current date and time is " ++ time_str ++ " (" ++ timezone ++ ").
Use this information when the user asks about the time, date, or anything time-related.".

Section Entrypoint.

Variable cfg : Agent.Config.
Variable svc : Agent.Services.
Variable settings : Settings.
Variable session : Session.

Definition log (lvl : level) (msg : string) : M unit := Agent.log lvl msg.

Definition await {A} (answer : outcome A) : M A :=
  ProcessRecording.construct answer.

(** [Assistant(time_str, timezone)]; the agent is known by its
    instructions. *)
Definition Assistant (time_str timezone : string) : M string :=
  log INFO ("✅ Agent initialized with Rachel instructions (length: "
            ++ str_of_nat (String.length (instructions time_str timezone))
            ++ ")") >>
  ret (instructions time_str timezone).

(** The first [try] of [entrypoint]: the time string and the name of the
    time zone that the agent is told. *)
Definition current_time : M (string * string) :=
  try_except
    (let* time_str := await (local_time session (AGENT_TIMEZONE settings)) in
     log INFO ("Agent timezone: " ++ AGENT_TIMEZONE settings
               ++ ", Current time: " ++ time_str) >>
     ret (time_str, AGENT_TIMEZONE settings))
    (fun e =>
       log WARNING ("Invalid timezone '" ++ AGENT_TIMEZONE settings
                    ++ "', falling back to UTC: " ++ exn_str e) >>
       let* time_str := await (local_time session "UTC") in
       ret (time_str, "UTC")).

(** [entrypoint] from the start of the recording on. *)
Definition converse (ctx : Agent.JobContext) (time_str timezone_name : string)
    : M unit :=
  let* egress_id := Agent.start_recording cfg svc ctx in
  (match egress_id with
   | Some (String _ _) =>
       log INFO ("Call recording to S3: "
                 ++ Agent.recording_path cfg (Agent.room ctx))
   | _ => ret tt
   end) >>
  await (realtime_model session "eve" (XAI_API_KEY settings)) >>
  log INFO "✅ Created xAI RealtimeModel with Grok Voice API" >>
  await (agent_session session) >>
  let* agent_instructions := Assistant time_str timezone_name in
  await (session_start session (Agent.room ctx) agent_instructions) >>
  try_except
    (await (update_instructions session agent_instructions) >>
     log INFO
       ("✅ Realtime session updated with Rachel instructions (length: "
        ++ str_of_nat (String.length agent_instructions) ++ ")"))
    (fun e =>
       log ERROR ("❌ Failed to update realtime instructions: " ++ exn_str e) >>
       log INFO
         "Agent may still work but might not have full Rachel personality") >>
  log INFO "✅ xAI RealtimeModel started with Rachel instructions" >>
  try_except
    (await (generate_reply session))
    (fun e =>
       log WARNING ("Initial greeting failed: " ++ exn_str e
                    ++ " - waiting for user to speak first")).

Definition entrypoint (ctx : Agent.JobContext) : M unit :=
  await (connect session) >>
  log INFO ("Call started - Room: " ++ Agent.room ctx) >>
  let* now := current_time in
  converse ctx (fst now) (snd now).

End Entrypoint.

End Entrypoint.

(** * webhook_server.py *)

Module WebhookServer.

Definition logger : string := "webhook-server".

Definition log (lvl : level) (msg : string) : M unit :=
  emit (Log logger lvl msg).

(** What a request to [/egress-webhook] comes to: the JSON document sent
    back, and the payloads for which a task running
    [handle_egress_webhook] was handed to the event loop with
    [asyncio.create_task].  The tasks run after the reply; nothing of
    their outcome reaches the caller. *)
Record Reply := {
  response : json;
  background : list json
}.

Section WebhookServer.

Variable repr : json -> string.

(** [request_json] is what [await request.json()] gives: the body parsed,
    or the error of the parser. *)
Definition egress_webhook (request_json : outcome json) : M Reply :=
  try_except
    (let* webhook_data := ProcessRecording.construct request_json in
     let* event := py_get webhook_data "event" JNull in
     log INFO ("Received webhook: " ++ py_str repr event) >>
     ret {| response := JObj [("status", JStr "ok")];
            background := [webhook_data] |})
    (fun e =>
       log ERROR ("Webhook processing error: " ++ exn_str e) >>
       ret {| response := JObj [ ("status", JStr "error");
                                 ("message", JStr (exn_str e)) ];
              background := [] |}).

Definition health : json := JObj [("status", JStr "healthy")].

End WebhookServer.

End WebhookServer.

(** ** More vocabulary *)


(** The requests of a job come in the order of its stages: at most one
    download, then at most one speech-to-text request, then at most one
    POST, each only after the one before. *)
Inductive staged : list event -> Prop :=
| staged_none : staged []
| staged_download (s3_bucket key filename : string) :
    staged [S3DownloadFile s3_bucket key filename]
| staged_transcribe (s3_bucket key filename : string) (stt : event) :
    is_transcription stt = true ->
    staged [S3DownloadFile s3_bucket key filename; stt]
| staged_post (s3_bucket key filename : string) (stt post : event) :
    is_transcription stt = true ->
    is_http_post post = true ->
    staged [S3DownloadFile s3_bucket key filename; stt; post].

(** What an integration does: it leaves the filesystem alone and sends at
    most one request, a speech-to-text request, exactly one when it
    returns a transcript. *)
Definition one_stt (r : outcome string) (w w' : World) : Prop :=
  fs w' = fs w
  /\ exists evs,
       trace w' = (trace w ++ evs)%list
       /\ match r with
          | Return _ =>
              exists stt, requests evs = [stt] /\ is_transcription stt = true
          | Raise _ =>
              requests evs = []
              \/ exists stt, requests evs = [stt] /\ is_transcription stt = true
          end.

(** ** More concrete inputs *)

Module Examples2.

(** A machine on which recording is switched on, with the region left to
    its default. *)
Definition env : gmap string string :=
  {[ "ENABLE_RECORDING" := "True";
     "S3_BUCKET" := "recordings";
     "ACCESS_SUPABASE" := "AK";
     "SECRET_SUPABASE" := "SK" ]}.

Definition settings : Entrypoint.Settings :=
  {| Entrypoint.AGENT_TIMEZONE := "Mars/Olympus";
     Entrypoint.XAI_API_KEY := Some "xai-test" |}.

(** A clock that only knows UTC, and a voice session that starts but
    neither takes new instructions nor greets. *)
Definition session : Entrypoint.Session :=
  {| Entrypoint.connect := Return tt;
     Entrypoint.local_time :=
       fun tz =>
         if String.eqb tz "UTC"
         then Return "Wednesday, November 04, 2026 at 12:35 PM"
         else Raise (Exn "ZoneInfoNotFoundError"
                       ("'No time zone found with key " ++ tz ++ "'"));
     Entrypoint.realtime_model := fun _ _ => Return tt;
     Entrypoint.agent_session := Return tt;
     Entrypoint.session_start := fun _ _ => Return tt;
     Entrypoint.update_instructions :=
       fun _ => Raise (Exn "RuntimeError" "no realtime session");
     Entrypoint.generate_reply := Raise (Exn "RealtimeError" "timeout") |}.

(** The same, but the session does not start. *)
Definition session_down : Entrypoint.Session :=
  {| Entrypoint.connect := Return tt;
     Entrypoint.local_time := Entrypoint.local_time session;
     Entrypoint.realtime_model := fun _ _ => Return tt;
     Entrypoint.agent_session := Return tt;
     Entrypoint.session_start :=
       fun _ _ => Raise (Exn "RealtimeError" "connection refused");
     Entrypoint.update_instructions := fun _ => Return tt;
     Entrypoint.generate_reply := Return tt |}.

(** Storage that is down. *)
Definition storage_down : ProcessRecording.Services :=
  {| ProcessRecording.boto3_client := fun _ _ _ _ => Return tt;
     ProcessRecording.download_file :=
       fun _ _ _ f => (Raise (Exn "ClientError" "404 Not Found"), f);
     ProcessRecording.openai_client := fun _ => Return tt;
     ProcessRecording.openai_transcriptions_create :=
       fun _ _ _ => Return "hello";
     ProcessRecording.google_speech_client := Return tt;
     ProcessRecording.google_recognize := fun _ _ => Return [["hello"]];
     ProcessRecording.deepgram_client := fun _ => Return tt;
     ProcessRecording.deepgram_transcribe_file := fun _ _ => Return [["hello"]];
     ProcessRecording.http_post := fun _ _ _ => Return 200%Z |}.

(** A machine on which the recording of room 42 has been downloaded. *)
Definition downloaded : World :=
  {| fs := {[ "/tmp" := Dir;
              "/tmp/livekit-recordings" := Dir;
              "/tmp/livekit-recordings/room-42.mp3" := File [] ]};
     trace := [] |}.


End Examples2.

(** * Properties of the runtime *)

Section Strings.

Lemma append_cons (c : ascii) (a b : string) :
  String c a ++ b = String c (a ++ b).
Proof. reflexivity. Qed.

Lemma append_nil (b : string) : "" ++ b = b.
Proof. reflexivity. Qed.

Lemma prefix_split (p s : string) :
  String.prefix p s = true <-> exists b, s = p ++ b.
Proof.
  revert s. induction p as [|c p IH]; intros s; simpl.
  - split; [intros _; exists s | intros _; destruct s]; reflexivity.
  - destruct s as [|d s]; simpl.
    + split; [discriminate | intros [b H]; discriminate].
    + destruct (Ascii.ascii_dec c d) as [->|Hne].
      * rewrite IH.
        split; intros [b H]; exists b; rewrite append_cons in *; congruence.
      * split; [discriminate|].
        intros [b H]. rewrite append_cons in H. congruence.
Qed.

Lemma occurs_tail (old s : string) (c : ascii) :
  occurs old s -> occurs old (String c s).
Proof. intros (a & b & ->). exists (String c a), b. reflexivity. Qed.

Lemma replace_scan_absent (old new s : string) :
  ~ occurs old s -> replace_scan old new 0 s = s.
Proof.
  induction s as [|c s IH]; intros Habs; simpl; [reflexivity|].
  destruct old as [|o old].
  { exfalso. apply Habs. exists "", (String c s). reflexivity. }
  destruct (String.prefix (String o old) (String c s)) eqn:Hp.
  - exfalso. apply Habs. apply prefix_split in Hp as [b ->].
    exists "", b. reflexivity.
  - simpl in Hp. rewrite Hp. f_equal. apply IH.
    intros Hocc. apply Habs. apply occurs_tail, Hocc.
Qed.

Lemma replace_scan_skip (old new a s : string) :
  replace_scan old new (String.length a) (a ++ s) = replace_scan old new 0 s.
Proof. induction a as [|c a IH]; simpl; [reflexivity | exact IH]. Qed.

Lemma occursb_correct (old s : string) :
  occurs old s <-> occursb old s = true.
Proof.
  induction s as [|c s IH].
  - split.
    + intros (a & b & H). destruct a; [|discriminate].
      rewrite append_nil in H. destruct old; [reflexivity|discriminate].
    + intros H. destruct old; [|discriminate]. exists "", "". reflexivity.
  - change (occursb old (String c s))
      with (String.prefix old (String c s) || occursb old s).
    rewrite orb_true_iff, <- IH. split.
    + intros (a & b & H). destruct a as [|c' a].
      * left. rewrite append_nil in H.
        change (String.prefix old (String c s) = true).
        apply prefix_split. exists b. exact H.
      * right. rewrite append_cons in H. injection H as _ ->.
        exists a, b. reflexivity.
    + intros [H|H].
      * change (String.prefix old (String c s) = true) in H.
        apply prefix_split in H as [b H]. exists "", b. exact H.
      * apply occurs_tail, H.
Qed.

(** [str.replace] on a string without the pattern gives the string back. *)
Lemma py_replace_absent (s old new : string) :
  ~ occurs old s -> py_replace s old new = s.
Proof.
  intros Habs. destruct old as [|o old]; simpl.
  - exfalso. apply Habs. exists "", s. reflexivity.
  - apply (replace_scan_absent (String o old)), Habs.
Qed.

(** [str.replace] on a string that starts with the pattern replaces it and
    goes on behind it. *)
Lemma py_replace_prefix (old new rest : string) :
  old <> "" ->
  py_replace (old ++ rest) old new = new ++ py_replace rest old new.
Proof.
  destruct old as [|o old]; [congruence|]. intros _.
  unfold py_replace. simpl.
  assert (Hp : String.prefix (String o old) (String o (old ++ rest)) = true).
  { apply prefix_split. exists rest. reflexivity. }
  simpl in Hp. rewrite Hp. f_equal.
  rewrite Nat.sub_0_r. apply replace_scan_skip.
Qed.

End Strings.

Section Traces.

Context {P : event -> Prop}.

Lemma emits_ret {A} (a : A) : emits P (ret a).
Proof.
  intros w r w' [= <- <-]. exists [].
  split; [symmetry; apply app_nil_r | constructor].
Qed.

Lemma emits_raise {A} (e : exn) : emits P (@raise A e).
Proof.
  intros w r w' [= <- <-]. exists [].
  split; [symmetry; apply app_nil_r | constructor].
Qed.

Lemma emits_construct {A} (answer : outcome A) :
  emits P (ProcessRecording.construct answer).
Proof.
  intros w r w' [= <- <-]. exists [].
  split; [symmetry; apply app_nil_r | constructor].
Qed.

Lemma emits_emit (ev : event) : P ev -> emits P (emit ev).
Proof.
  intros Hev w r w' [= <- <-]. exists [ev].
  split; [reflexivity | repeat constructor; exact Hev].
Qed.

Lemma emits_call {A} (ev : event) (answer : outcome A) :
  P ev -> emits P (call ev answer).
Proof.
  intros Hev w r w' [= <- <-]. exists [ev].
  split; [reflexivity | repeat constructor; exact Hev].
Qed.

Lemma emits_call_fs {A} (ev : event)
    (answer : gmap string node -> outcome A * gmap string node) :
  P ev -> emits P (ProcessRecording.call_fs ev answer).
Proof.
  intros Hev w r w' [= <- <-]. exists [ev].
  split; [reflexivity | repeat constructor; exact Hev].
Qed.

Lemma emits_bind {A B} (m : M A) (k : A -> M B) :
  emits P m -> (forall a, emits P (k a)) -> emits P (bind m k).
Proof.
  intros Hm Hk w r w' Hrun. unfold bind in Hrun.
  destruct (m w) as [[a|e] w1] eqn:Hmw.
  - destruct (Hm _ _ _ Hmw) as (evs1 & Ht1 & HP1).
    destruct (Hk a _ _ _ Hrun) as (evs2 & Ht2 & HP2).
    exists (evs1 ++ evs2)%list. split.
    + rewrite Ht2, Ht1. symmetry. apply app_assoc.
    + apply Forall_app. split; assumption.
  - injection Hrun as <- <-. exact (Hm _ _ _ Hmw).
Qed.

Lemma emits_try_except {A} (body : M A) (handler : exn -> M A) :
  emits P body -> (forall e, emits P (handler e)) ->
  emits P (try_except body handler).
Proof.
  intros Hb Hh w r w' Hrun. unfold try_except in Hrun.
  destruct (body w) as [[a|e] w1] eqn:Hbw.
  - injection Hrun as <- <-. exact (Hb _ _ _ Hbw).
  - destruct (Hb _ _ _ Hbw) as (evs1 & Ht1 & HP1).
    destruct (Hh e _ _ _ Hrun) as (evs2 & Ht2 & HP2).
    exists (evs1 ++ evs2)%list. split.
    + rewrite Ht2, Ht1. symmetry. apply app_assoc.
    + apply Forall_app. split; assumption.
Qed.

Lemma emits_try_finally {A} (body : M A) (final : M unit) :
  emits P body -> emits P final -> emits P (try_finally body final).
Proof.
  intros Hb Hf w r w' Hrun. unfold try_finally in Hrun.
  destruct (body w) as [rb w1] eqn:Hbw.
  destruct (final w1) as [rf w2] eqn:Hfw.
  destruct (Hb _ _ _ Hbw) as (evs1 & Ht1 & HP1).
  destruct (Hf _ _ _ Hfw) as (evs2 & Ht2 & HP2).
  exists (evs1 ++ evs2)%list. split.
  - assert (w' = w2) as -> by (destruct rf; congruence).
    rewrite Ht2, Ht1. symmetry. apply app_assoc.
  - apply Forall_app. split; assumption.
Qed.

Lemma emits_if {A} (b : bool) (m1 m2 : M A) :
  emits P m1 -> emits P m2 -> emits P (if b then m1 else m2).
Proof. destruct b; auto. Qed.

Lemma emits_same_trace {A} (m : M A) :
  (forall w r w', m w = (r, w') -> trace w' = trace w) -> emits P m.
Proof.
  intros H w r w' Hrun. exists []. split; [|constructor].
  rewrite (H _ _ _ Hrun). symmetry. apply app_nil_r.
Qed.

Lemma emits_mkdir (p : string) : emits P (mkdir_exist_ok p).
Proof.
  apply emits_same_trace. intros w r w'. unfold mkdir_exist_ok.
  destruct (fs w !! p) as [[c|]|]; [intros [= <- <-]; reflexivity ..|].
  destruct (fs w !! parent p) as [[c|]|]; intros [= <- <-]; reflexivity.
Qed.

Lemma emits_exists (p : string) : emits P (exists_ p).
Proof. apply emits_same_trace. intros w r w' [= <- <-]. reflexivity. Qed.

Lemma emits_unlink (p : string) : emits P (unlink p).
Proof.
  apply emits_same_trace. intros w r w'. unfold unlink.
  destruct (fs w !! p) as [[c|]|]; intros [= <- <-]; reflexivity.
Qed.

Lemma emits_read_file (p : string) : emits P (read_file p).
Proof.
  apply emits_same_trace. intros w r w'. unfold read_file.
  destruct (fs w !! p) as [[c|]|]; intros [= <- <-]; reflexivity.
Qed.

Lemma emits_first {A} (l : list A) : emits P (ProcessRecording.first l).
Proof. destruct l; [apply emits_raise | apply emits_ret]. Qed.

Lemma emits_for_each {A B} (f : A -> M B) (l : list A) :
  (forall a, emits P (f a)) -> emits P (ProcessRecording.for_each f l).
Proof.
  intros Hf. induction l as [|x l IH]; simpl.
  - apply emits_ret.
  - apply emits_bind; [apply Hf|]. intros y.
    apply emits_bind; [apply IH|]. intros ys. apply emits_ret.
Qed.

End Traces.

Lemma emits_weaken {A} (P Q : event -> Prop) (m : M A) :
  (forall ev, P ev -> Q ev) -> emits P m -> emits Q m.
Proof.
  intros HPQ Hm w r w' Hrun. destruct (Hm _ _ _ Hrun) as (evs & Ht & HP).
  exists evs. split; [exact Ht|]. eapply Forall_impl; eauto.
Qed.

Create HintDb emits discriminated.
#[local] Hint Resolve emits_ret emits_raise emits_construct emits_mkdir
  emits_exists emits_unlink emits_read_file emits_first : emits.

(** Walks down a computation built from the combinators, leaving the
    conditions on the events it emits. *)
Ltac emits_step :=
  match goal with
  | |- emits _ (bind _ _) => apply emits_bind; [|intros ?]
  | |- emits _ (try_except _ _) => apply emits_try_except; [|intros ?]
  | |- emits _ (try_finally _ _) => apply emits_try_finally
  | |- emits _ (if _ then _ else _) => apply emits_if
  | |- emits _ (emit _) => apply emits_emit
  | |- emits _ (call _ _) => apply emits_call
  | |- emits _ (ProcessRecording.call_fs _ _) => apply emits_call_fs
  | |- emits _ (ProcessRecording.for_each _ _) => apply emits_for_each; intros ?
  | |- emits _ (ProcessRecording.log _ _) => apply emits_emit
  | |- emits _ (Agent.log _ _) => apply emits_emit
  | |- emits _ _ => solve [auto with emits]
  end.

(** * agent.py: the recording starter and the hang-up tool *)

Section AgentProperties.

Import Agent.

Variable cfg : Config.
Variable svc : Services.

Lemma credentials_incomplete :
  credentials_complete cfg = false <->
  S3_BUCKET cfg = "" \/ S3_REGION cfg = "" \/ S3_ACCESS_KEY cfg = ""
  \/ S3_SECRET_KEY cfg = "".
Proof.
  unfold credentials_complete. simpl.
  destruct (S3_BUCKET cfg), (S3_REGION cfg), (S3_ACCESS_KEY cfg),
    (S3_SECRET_KEY cfg); simpl; intuition congruence.
Qed.

(** C2.  [start_recording] always returns, with the egress identifier of
    the provider or with [None]; it changes nothing on disk.  When
    recording is disabled or one of bucket, region, access key and secret
    key is empty it returns [None] and has asked nothing of the egress
    service.  Otherwise it asks once, for the request [egress_request];
    it returns the identifier that the service answers, and when the
    service raises it logs the failure as an error and returns [None]. *)
Theorem start_recording_returns_id_or_none (ctx : JobContext) (w : World) :
  exists (res : option string) (evs : list event),
    start_recording cfg svc ctx w
      = (Return res, {| fs := fs w; trace := trace w ++ evs |})
    /\ (ENABLE_RECORDING cfg = false \/ S3_BUCKET cfg = ""
        \/ S3_REGION cfg = "" \/ S3_ACCESS_KEY cfg = ""
        \/ S3_SECRET_KEY cfg = "" ->
        res = None /\ requests evs = [])
    /\ (ENABLE_RECORDING cfg = true -> credentials_complete cfg = true ->
        requests evs
          = [StartRoomCompositeEgress (egress_request cfg (room ctx))]
        /\ match start_room_composite_egress svc
                   (egress_request cfg (room ctx)) with
           | Return egress_id => res = Some egress_id
           | Raise e =>
               res = None
               /\ last evs
                  = Some (Log logger ERROR
                            ("Failed to start recording: " ++ exn_str e))
           end).
Proof.
  unfold start_recording.
  destruct (ENABLE_RECORDING cfg) eqn:Hen; simpl.
  - destruct (credentials_complete cfg) eqn:Hcc; simpl.
    + unfold try_except, bind, log, emit, call, add_event, ret; simpl.
      destruct (start_room_composite_egress svc _) as [egress_id|e];
        simpl; rewrite <- !app_assoc; simpl.
      * eexists _, _. split; [reflexivity|]. split.
        -- intros [H|H]; [discriminate|].
           apply credentials_incomplete in H. congruence.
        -- intros _ _. split; reflexivity.
      * eexists _, _. split; [reflexivity|]. split.
        -- intros [H|H]; [discriminate|].
           apply credentials_incomplete in H. congruence.
        -- intros _ _. repeat split; reflexivity.
    + unfold bind, log, emit, add_event, ret; simpl.
      rewrite <- !app_assoc; simpl.
      eexists _, _. split; [reflexivity|]. split.
      * intros _. split; reflexivity.
      * intros _ H. discriminate.
  - unfold bind, log, emit, add_event, ret; simpl.
    eexists _, _. split; [reflexivity|]. split.
    + intros _. split; reflexivity.
    + intros H. discriminate.
Qed.


End AgentProperties.

(** C2 at work: with the secret key missing nothing is asked and [None]
    comes back. *)
Lemma start_recording_no_secret :
  exists w',
    Agent.start_recording Examples.agent_cfg_no_secret Examples.livekit_up
      Examples.ctx42 Examples.fresh = (Return None, w')
    /\ requests (trace w') = [].
Proof.
  destruct (start_recording_returns_id_or_none Examples.agent_cfg_no_secret
              Examples.livekit_up Examples.ctx42 Examples.fresh)
    as (res & evs & Hrun & Hoff & _).
  destruct Hoff as [-> Hreq].
  { right. right. right. right. reflexivity. }
  eexists. split; [exact Hrun|].
  simpl. exact Hreq.
Defined.


(** * process_recording.py: the recording processor *)

Section ProcessRecordingProperties.

Import ProcessRecording.

Variable cfg : Config.
Variable svc : Services.

(** ** Download *)

(** C10, as amended.  [download_from_s3] asks the storage once (not at
    all when the storage client cannot be made), always for the configured
    [S3_BUCKET] whatever bucket the path names, and for the key that
    [str.replace] leaves after removing the text [s3://<S3_BUCKET>/] from
    the path: an occurrence at the front is dropped and the scan goes on
    behind it, and a path in which that text does not occur (such as a
    path into another bucket whose key does not contain it) is passed
    whole as the key. *)
Theorem download_from_s3_request (s3_path local_path : string) (w : World) :
  exists (ok : bool) (f : gmap string node) (evs : list event),
    download_from_s3 cfg svc s3_path local_path w
      = (Return ok, {| fs := f; trace := trace w ++ evs |})
    /\ requests evs
       = match boto3_client svc (S3_ACCESS_KEY cfg) (S3_SECRET_KEY cfg)
                 (S3_REGION cfg) (S3_ENDPOINT cfg) with
         | Return _ =>
             [S3DownloadFile (S3_BUCKET cfg)
                (py_replace s3_path ("s3://" ++ S3_BUCKET cfg ++ "/") "")
                local_path]
         | Raise _ => []
         end
    /\ (forall rest,
          object_key cfg (("s3://" ++ S3_BUCKET cfg ++ "/") ++ rest)
          = object_key cfg rest)
    /\ (~ occurs ("s3://" ++ S3_BUCKET cfg ++ "/") s3_path ->
        object_key cfg s3_path = s3_path).
Proof.
  unfold download_from_s3.
  unfold try_except, bind, construct, call_fs, log, emit, add_event, set_fs,
    ret; simpl.
  destruct (boto3_client svc _ _ _ _) as [[]|e]; simpl.
  - destruct (download_file svc _ _ _ _) as [[[]|e] f] eqn:Hdl; simpl;
      rewrite <- !app_assoc; simpl.
    + eexists _, _, _. split; [reflexivity|]. split; [reflexivity|].
      split.
      * intros rest. unfold object_key.
        rewrite py_replace_prefix; [reflexivity | discriminate].
      * apply py_replace_absent.
    + eexists _, _, _. split; [reflexivity|]. split; [reflexivity|].
      split.
      * intros rest. unfold object_key.
        rewrite py_replace_prefix; [reflexivity | discriminate].
      * apply py_replace_absent.
  - eexists _, _, _. split; [reflexivity|]. split; [reflexivity|].
    split.
    + intros rest. unfold object_key.
      rewrite py_replace_prefix; [reflexivity | discriminate].
    + apply py_replace_absent.
Qed.

(** ** Notification *)

(** C7.  With a webhook URL configured, [send_transcript_webhook] issues
    exactly one HTTP POST, to that URL, with a JSON object of exactly the
    keys [room_name], [transcript], [audio_file] and [stt_provider] and a
    timeout of 30 seconds; it returns normally whether the POST answers
    (the status is logged) or raises (the failure is logged as an error).
    With no URL configured it makes no request.  Either way the job goes
    on: [deliver] returns after logging that processing is complete. *)
Theorem send_transcript_webhook_posts_once
    (room_name transcript s3_path : string) (w : World) :
  (exists evs,
     send_transcript_webhook cfg svc room_name transcript s3_path w
       = (Return tt, {| fs := fs w; trace := trace w ++ evs |})
     /\ (TRANSCRIPT_WEBHOOK_URL cfg <> "" ->
         requests evs
           = [HttpPost (TRANSCRIPT_WEBHOOK_URL cfg)
                (JObj [ ("room_name", JStr room_name);
                        ("transcript", JStr transcript);
                        ("audio_file", JStr s3_path);
                        ("stt_provider", JStr (STT_PROVIDER cfg)) ])
                30.0]
         /\ last evs
            = Some (match http_post svc (TRANSCRIPT_WEBHOOK_URL cfg)
                            (payload cfg room_name transcript s3_path) 30.0 with
                    | Return status_code =>
                        Log logger INFO
                          ("Webhook sent: " ++ str_of_Z status_code)
                    | Raise e =>
                        Log logger ERROR
                          ("Failed to send webhook: " ++ exn_str e)
                    end))
     /\ (TRANSCRIPT_WEBHOOK_URL cfg = "" -> requests evs = []))
  /\ (exists evs,
        deliver cfg svc s3_path room_name transcript w
          = (Return tt, {| fs := fs w; trace := trace w ++ evs |})
        /\ length (List.filter is_http_post evs)
           = (if str_truthy (TRANSCRIPT_WEBHOOK_URL cfg) then 1 else 0)%nat
        /\ last evs = Some (Log logger INFO "Processing complete!")).
Proof.
  unfold deliver, send_transcript_webhook, payload.
  destruct (TRANSCRIPT_WEBHOOK_URL cfg) as [|c url] eqn:Hurl; simpl.
  - unfold bind, log, emit, add_event, ret; simpl. split.
    + eexists. split; [reflexivity|]. split; [congruence|reflexivity].
    + rewrite <- !app_assoc; simpl.
      eexists. split; [reflexivity|]. split; reflexivity.
  - unfold try_except, bind, call, log, emit, add_event, ret; simpl.
    destruct (http_post svc _ _ _) as [status_code|e]; simpl;
      rewrite <- !app_assoc; simpl.
    + split.
      * eexists. split; [reflexivity|]. split; [|discriminate].
        intros _. split; reflexivity.
      * eexists. split; [reflexivity|]. split; reflexivity.
    + split.
      * eexists. split; [reflexivity|]. split; [|discriminate].
        intros _. split; reflexivity.
      * eexists. split; [reflexivity|]. split; reflexivity.
Qed.

(** ** What each stage asks of the outside *)

Lemma download_from_s3_silent (s3_path local_path : string) :
  emits silent (download_from_s3 cfg svc s3_path local_path).
Proof.
  unfold download_from_s3. repeat emits_step; split; reflexivity.
Qed.

Lemma transcribe_openai_no_post (audio_path : string) :
  emits no_post (transcribe_openai cfg svc audio_path).
Proof. unfold transcribe_openai. repeat emits_step; reflexivity. Qed.

Lemma transcribe_google_no_post (audio_path : string) :
  emits no_post (transcribe_google svc audio_path).
Proof. unfold transcribe_google. repeat emits_step; reflexivity. Qed.

Lemma transcribe_deepgram_no_post (audio_path : string) :
  emits no_post (transcribe_deepgram cfg svc audio_path).
Proof. unfold transcribe_deepgram. repeat emits_step; reflexivity. Qed.

Lemma selected_integration_no_post (transcribe : string -> M string)
    (audio_path : string) :
  selected_integration cfg svc = Some transcribe ->
  emits no_post (transcribe audio_path).
Proof.
  unfold selected_integration.
  repeat case_match; intros [= <-];
    auto using transcribe_openai_no_post, transcribe_google_no_post,
      transcribe_deepgram_no_post.
Qed.

Lemma cleanup_no_request (p : string) : emits no_request (cleanup p).
Proof. unfold cleanup. repeat emits_step; reflexivity. Qed.

(** ** Cleanup *)

(** For a room name that does not start with a slash, the temporary file
    is [/tmp/livekit-recordings/<room_name>.mp3]. *)
Lemma local_path_relative (room_name : string) :
  String.prefix "/" room_name = false ->
  local_path room_name = "/tmp/livekit-recordings/" ++ room_name ++ ".mp3".
Proof.
  unfold local_path, path_join, temp_dir.
  destruct room_name as [|c name]; [reflexivity|].
  rewrite append_cons.
  destruct c as [[] [] [] [] [] [] [] []]; try reflexivity.
  destruct name; discriminate.
Qed.

Lemma cleanup_removes (p : string) (w : World) (r : outcome unit) (w' : World) :
  cleanup p w = (r, w') -> ~ is_file w' p.
Proof.
  unfold cleanup, bind, exists_, unlink, log, emit, add_event, set_fs, ret.
  simpl. intros Hrun [c Hc].
  destruct (fs w !! p) as [[c0|]|] eqn:Hp; simpl in Hrun.
  - rewrite Hp in Hrun. injection Hrun as <- <-. simpl in Hc.
    rewrite lookup_delete_eq in Hc. discriminate.
  - rewrite Hp in Hrun. injection Hrun as <- <-. congruence.
  - injection Hrun as <- <-. congruence.
Qed.

Lemma cleanup_returns (p : string) (w : World) :
  fs w !! p <> Some Dir -> exists w', cleanup p w = (Return tt, w').
Proof.
  unfold cleanup, bind, exists_, unlink, log, emit, add_event, set_fs, ret.
  simpl. intros Hp.
  destruct (fs w !! p) as [[c0|]|] eqn:Hfs; simpl.
  - rewrite Hfs. eauto.
  - congruence.
  - eauto.
Qed.

(** C1.  When [process_recording] is over, by return or by exception, no
    file is left at the temporary path of the room, whatever the storage
    client wrote and whichever stage failed; for a room name that does not
    start with a slash that path is
    [/tmp/livekit-recordings/<room_name>.mp3].  The filesystem is assumed
    sane at the start: a temporary file that is already there lies in an
    existing temporary directory. *)
Theorem process_recording_removes_temp_file
    (s3_path room_name : string) (w : World) (r : outcome unit) (w' : World) :
  (is_file w (local_path room_name) -> fs w !! temp_dir = Some Dir) ->
  process_recording cfg svc s3_path room_name w = (r, w') ->
  ~ is_file w' (local_path room_name)
  /\ (String.prefix "/" room_name = false ->
      ~ is_file w' ("/tmp/livekit-recordings/" ++ room_name ++ ".mp3")).
Proof.
  intros Hsane Hrun.
  assert (Hgone : ~ is_file w' (local_path room_name));
    [|split; [exact Hgone|];
      intros Hrel; rewrite <- (local_path_relative _ Hrel); exact Hgone].
  revert Hrun. unfold process_recording, bind at 1 2, log, emit. simpl.
  unfold mkdir_exist_ok. simpl.
  destruct (fs w !! temp_dir) as [[c|]|] eqn:Hdir.
  - intros [= <- <-] Hfile. apply Hsane in Hfile. discriminate.
  - unfold try_finally.
    destruct (attempt _ _ _ _ _ _) as [rb w1].
    destruct (cleanup _ w1) as [rf w2] eqn:Hclean.
    intros Hrun. assert (w' = w2) as -> by (destruct rf; congruence).
    eapply cleanup_removes, Hclean.
  - destruct (fs w !! parent temp_dir) as [[c|]|] eqn:Hparent.
    + intros [= <- <-] Hfile. apply Hsane in Hfile. discriminate.
    + unfold try_finally.
      destruct (attempt _ _ _ _ _ _) as [rb w1].
      destruct (cleanup _ w1) as [rf w2] eqn:Hclean.
      intros Hrun. assert (w' = w2) as -> by (destruct rf; congruence).
      eapply cleanup_removes, Hclean.
    + intros [= <- <-] Hfile. apply Hsane in Hfile. discriminate.
Qed.

(** ** Dispatch *)

(** The [if]/[elif] chain calls the selected integration, or logs that
    there is none. *)
Lemma attempt_dispatch (s3_path room_name local_path : string) :
  attempt cfg svc s3_path room_name local_path
  = (let* downloaded := download_from_s3 cfg svc s3_path local_path in
     if negb downloaded then
       log ERROR "Failed to download audio file"
     else
       match selected_integration cfg svc with
       | Some transcribe =>
           let* transcript := transcribe local_path in
           deliver cfg svc s3_path room_name transcript
       | None => log ERROR ("Unknown STT provider: " ++ STT_PROVIDER cfg)
       end).
Proof.
  unfold attempt, selected_integration.
  repeat case_match; reflexivity.
Qed.

Lemma selected_integration_none :
  STT_PROVIDER cfg <> "openai" -> STT_PROVIDER cfg <> "google" ->
  STT_PROVIDER cfg <> "deepgram" ->
  selected_integration cfg svc = None.
Proof.
  intros H1 H2 H3. unfold selected_integration.
  apply String.eqb_neq in H1, H2, H3. rewrite H1, H2, H3. reflexivity.
Qed.

Lemma process_recording_started (s3_path room_name : string) (w w1 : World) :
  started s3_path w w1 ->
  process_recording cfg svc s3_path room_name w
  = try_finally (attempt cfg svc s3_path room_name (local_path room_name))
      (cleanup (local_path room_name)) w1.
Proof.
  unfold started, process_recording, bind at 1 2, log, emit. simpl.
  intros ->. reflexivity.
Qed.

Lemma started_trace (s3_path : string) (w w1 : World) :
  started s3_path w w1 ->
  trace w1
  = (trace w ++ [Log logger INFO ("Processing recording: " ++ s3_path)])%list.
Proof.
  unfold started, mkdir_exist_ok. simpl.
  repeat case_match; intros [= <-]; reflexivity.
Qed.

(** C6.  With an STT provider other than [openai], [google] and
    [deepgram], a job makes no speech-to-text request and no HTTP POST;
    once the recording is downloaded, all it does is log the unknown
    provider as an error and clean up. *)
Theorem unknown_provider_aborts
    (s3_path room_name : string) (w : World) (r : outcome unit) (w' : World) :
  STT_PROVIDER cfg <> "openai" ->
  STT_PROVIDER cfg <> "google" ->
  STT_PROVIDER cfg <> "deepgram" ->
  process_recording cfg svc s3_path room_name w = (r, w') ->
  (exists evs, trace w' = (trace w ++ evs)%list /\ Forall silent evs)
  /\ (forall w1 w2,
        started s3_path w w1 ->
        download_from_s3 cfg svc s3_path (local_path room_name) w1
          = (Return true, w2) ->
        cleanup (local_path room_name)
          (add_event
             (Log logger ERROR ("Unknown STT provider: " ++ STT_PROVIDER cfg))
             w2)
        = (r, w')).
Proof.
  intros H1 H2 H3 Hrun.
  pose proof (selected_integration_none H1 H2 H3) as Hnone.
  split.
  - revert w r w' Hrun.
    change (emits silent (process_recording cfg svc s3_path room_name)).
    unfold process_recording. rewrite attempt_dispatch, Hnone.
    repeat emits_step; try (split; reflexivity).
    + apply download_from_s3_silent.
    + eapply emits_weaken; [|apply cleanup_no_request].
      intros [] Hev; try discriminate; split; reflexivity.
  - intros w1 w2 Hstart Hdl.
    rewrite (process_recording_started _ _ _ _ Hstart) in Hrun.
    rewrite attempt_dispatch, Hnone in Hrun.
    unfold try_finally, bind in Hrun. rewrite Hdl in Hrun. simpl in Hrun.
    unfold log, emit in Hrun.
    destruct (cleanup _ _) as [[[]|e] w4]; exact Hrun.
Qed.

(** C5.  Once the recording is downloaded, if the selected integration
    raises, [process_recording] raises too: the same exception, unless the
    temporary path is a directory, where the failing [unlink] of the
    cleanup raises in its place.  The whole job makes no HTTP POST; before
    the integration ran there was no speech-to-text request, and after it
    raised nothing is asked of any service, so no other provider is tried. *)
Theorem transcription_failure_propagates
    (s3_path room_name : string) (transcribe : string -> M string)
    (e : exn) (w w1 w2 w3 : World) :
  selected_integration cfg svc = Some transcribe ->
  started s3_path w w1 ->
  download_from_s3 cfg svc s3_path (local_path room_name) w1
    = (Return true, w2) ->
  transcribe (local_path room_name) w2 = (Raise e, w3) ->
  exists (e' : exn) (w' : World) (before during after : list event),
    process_recording cfg svc s3_path room_name w = (Raise e', w')
    /\ (fs w3 !! local_path room_name <> Some Dir -> e' = e)
    /\ trace w2 = (trace w ++ before)%list
    /\ trace w3 = (trace w2 ++ during)%list
    /\ trace w' = (trace w3 ++ after)%list
    /\ Forall silent before
    /\ Forall no_post during
    /\ Forall no_request after.
Proof.
  intros Hsel Hstart Hdl Hraise.
  rewrite (process_recording_started _ _ _ _ Hstart).
  rewrite attempt_dispatch, Hsel.
  unfold try_finally, bind. rewrite Hdl. simpl. rewrite Hraise.
  destruct (cleanup (local_path room_name) w3) as [rf w4] eqn:Hclean.
  destruct (download_from_s3_silent _ _ _ _ _ Hdl) as (evs0 & Ht0 & Hs0).
  destruct (selected_integration_no_post _ (local_path room_name) Hsel
              _ _ _ Hraise) as (evs1 & Ht1 & Hs1).
  destruct (cleanup_no_request _ _ _ _ Hclean) as (evs2 & Ht2 & Hs2).
  exists (match rf with Return _ => e | Raise e' => e' end), w4.
  exists (Log logger INFO ("Processing recording: " ++ s3_path) :: evs0),
    evs1, evs2.
  split; [destruct rf; reflexivity|].
  split.
  { intros Hnd. destruct (cleanup_returns _ _ Hnd) as [w5 Hret].
    rewrite Hret in Hclean. injection Hclean as <- <-. reflexivity. }
  split.
  { rewrite Ht0, (started_trace _ _ _ Hstart), <- app_assoc. reflexivity. }
  repeat split; try assumption.
  constructor; [split; reflexivity | assumption].
Qed.

(** ** The webhook handler *)

Variable repr : json -> string.

Lemma ne_str_true (v : json) (s : string) :
  ne_str v s = true <-> v <> JStr s.
Proof.
  unfold ne_str, eq_str.
  destruct v; simpl; try (split; [discriminate|reflexivity]).
  destruct (String.eqb_spec s0 s) as [->|Hne]; simpl.
  - split; [discriminate | congruence].
  - split; [congruence | reflexivity].
Qed.

(** The handler on a dict whose [egressInfo] is a dict (or is absent):
    the chain of its four guards. *)
Lemma handle_egress_webhook_guards
    (callee : json -> json -> M unit) (d e : list (string * json)) :
  dict_get "egressInfo" (JObj []) d = JObj e ->
  handle_egress_webhook repr callee (JObj d)
  = if ne_str (dict_get "event" JNull d) "egress_ended" then
      log INFO ("Ignoring event: " ++ py_str repr (dict_get "event" JNull d))
    else if ne_str (dict_get "status" JNull e) "EGRESS_COMPLETE" then
      log WARNING
        ("Egress not complete: " ++ py_str repr (dict_get "status" JNull e))
    else if negb (truthy (dict_get "fileResults" (JList []) e)) then
      log ERROR "No file results in webhook"
    else
      let* file_info := py_first (dict_get "fileResults" (JList []) e) in
      let* s3_path := py_get file_info "location" JNull in
      if negb (truthy s3_path) then
        log ERROR "No S3 path in file results"
      else
        log INFO ("Egress complete for room: "
                  ++ py_str repr (dict_get "roomName" JNull e)) >>
        callee s3_path (dict_get "roomName" JNull e).
Proof.
  intros Hinfo. unfold handle_egress_webhook, py_get, bind at 1, ret.
  destruct (ne_str (dict_get "event" JNull d) "egress_ended"); [reflexivity|].
  unfold bind at 1. rewrite Hinfo. unfold bind at 1 2.
  destruct (ne_str (dict_get "status" JNull e) "EGRESS_COMPLETE");
    [reflexivity|].
  unfold bind at 1.
  destruct (truthy (dict_get "fileResults" (JList []) e)); reflexivity.
Qed.

(** C4.  A payload whose [egressInfo] has a status other than
    [EGRESS_COMPLETE], or an empty or absent list of file results, makes
    the handler log one line and return, whatever the event type:
    [process_recording] is not called, as the outcome is the same for
    every processor. *)
Theorem incomplete_egress_is_discarded
    (d e : list (string * json)) (w : World) :
  dict_get "egressInfo" (JObj []) d = JObj e ->
  dict_get "status" JNull e <> JStr "EGRESS_COMPLETE"
  \/ dict_get "fileResults" (JList []) e = JList [] ->
  exists lvl msg, forall callee : json -> json -> M unit,
    handle_egress_webhook repr callee (JObj d) w
    = (Return tt, add_event (Log logger lvl msg) w).
Proof.
  intros Hinfo Hbad.
  destruct (ne_str (dict_get "event" JNull d) "egress_ended") eqn:Hev.
  { eexists _, _. intros callee.
    rewrite (handle_egress_webhook_guards callee _ _ Hinfo), Hev.
    reflexivity. }
  destruct (ne_str (dict_get "status" JNull e) "EGRESS_COMPLETE") eqn:Hst.
  { eexists _, _. intros callee.
    rewrite (handle_egress_webhook_guards callee _ _ Hinfo), Hev, Hst.
    reflexivity. }
  destruct Hbad as [Hbad|Hbad].
  { apply ne_str_true in Hbad. congruence. }
  eexists _, _. intros callee.
  rewrite (handle_egress_webhook_guards callee _ _ Hinfo), Hev, Hst, Hbad.
  reflexivity.
Qed.

(** The handler also discards an event whose type, status, file results or
    first location is absent (read as [None]). *)
Lemma absent_field_is_discarded
    (d e : list (string * json)) (w : World) :
  dict_get "egressInfo" (JObj []) d = JObj e ->
  assoc "event" d = None \/ assoc "status" e = None
  \/ assoc "fileResults" e = None
  \/ (exists f rest, assoc "fileResults" e = Some (JList (JObj f :: rest))
                     /\ assoc "location" f = None) ->
  exists lvl msg, forall callee : json -> json -> M unit,
    handle_egress_webhook repr callee (JObj d) w
    = (Return tt, add_event (Log logger lvl msg) w).
Proof.
  intros Hinfo Habs.
  destruct (ne_str (dict_get "event" JNull d) "egress_ended") eqn:Hev.
  { eexists _, _. intros callee.
    rewrite (handle_egress_webhook_guards callee _ _ Hinfo), Hev.
    reflexivity. }
  destruct (ne_str (dict_get "status" JNull e) "EGRESS_COMPLETE") eqn:Hst.
  { eexists _, _. intros callee.
    rewrite (handle_egress_webhook_guards callee _ _ Hinfo), Hev, Hst.
    reflexivity. }
  destruct Habs as [H|[H|[H|(f & rest & Hfr & Hloc)]]].
  - unfold dict_get in Hev. rewrite H in Hev. discriminate.
  - unfold dict_get in Hst. rewrite H in Hst. discriminate.
  - eexists _, _. intros callee.
    rewrite (handle_egress_webhook_guards callee _ _ Hinfo), Hev, Hst.
    unfold dict_get. rewrite H. reflexivity.
  - eexists _, _. intros callee.
    rewrite (handle_egress_webhook_guards callee _ _ Hinfo), Hev, Hst.
    assert (Hfr' : dict_get "fileResults" (JList []) e
                   = JList (JObj f :: rest))
      by (unfold dict_get; rewrite Hfr; reflexivity).
    assert (Hloc' : dict_get "location" JNull f = JNull)
      by (unfold dict_get; rewrite Hloc; reflexivity).
    rewrite Hfr'. simpl. unfold bind at 1, ret at 1, py_get.
    unfold bind at 1, ret at 1. rewrite Hloc'. reflexivity.
Qed.

(** C3, where the code departs from it.  The completion event of a
    finished egress whose [egressInfo] has no [roomName] is not discarded:
    the handler logs the room as [None] and calls the processor with the
    location and [None] as the room name. *)
Theorem missing_room_name_is_processed
    (callee : json -> json -> M unit) (d e f : list (string * json))
    (rest : list json) (location : json) (w : World) :
  dict_get "event" JNull d = JStr "egress_ended" ->
  dict_get "egressInfo" (JObj []) d = JObj e ->
  assoc "roomName" e = None ->
  dict_get "status" JNull e = JStr "EGRESS_COMPLETE" ->
  dict_get "fileResults" (JList []) e = JList (JObj f :: rest) ->
  dict_get "location" JNull f = location ->
  truthy location = true ->
  handle_egress_webhook repr callee (JObj d) w
  = callee location JNull
      (add_event (Log logger INFO "Egress complete for room: None") w).
Proof.
  intros Hev Hinfo Hroom Hst Hfr Hloc Htrue.
  rewrite (handle_egress_webhook_guards callee _ _ Hinfo), Hev, Hst, Hfr.
  simpl. unfold bind at 1, ret at 1, py_get.
  unfold bind at 1, ret at 1. rewrite Hloc, Htrue. simpl.
  unfold dict_get. rewrite Hroom. reflexivity.
Qed.

End ProcessRecordingProperties.


(** * The statements at concrete inputs *)

Import ProcessRecording.

(** A whole job on a fresh machine, with OpenAI as the provider. *)
Example process_recording_run :
  process_recording Examples.cfg_openai Examples.up Examples.s3_path
    "room-42" Examples.fresh
  = (Return tt,
     {| fs := {[ "/tmp" := Dir; "/tmp/livekit-recordings" := Dir ]};
        trace :=
          [ Log logger INFO
              "Processing recording: s3://recordings/calls/room-42.mp3";
            Log logger INFO
              "Downloading from S3: recordings/calls/room-42.mp3";
            S3DownloadFile "recordings" "calls/room-42.mp3"
              "/tmp/livekit-recordings/room-42.mp3";
            Log logger INFO
              "Downloaded to: /tmp/livekit-recordings/room-42.mp3";
            Log logger INFO
              "Transcribing with OpenAI Whisper: /tmp/livekit-recordings/room-42.mp3";
            OpenAITranscriptionsCreate "whisper-1" [] "verbose_json";
            Log logger INFO "Transcript generated (5 chars)";
            Log logger INFO "Transcript: hello...";
            HttpPost Examples.url
              (JObj [ ("room_name", JStr "room-42");
                      ("transcript", JStr "hello");
                      ("audio_file", JStr Examples.s3_path);
                      ("stt_provider", JStr "openai") ])
              30.0;
            Log logger INFO "Webhook sent: 200";
            Log logger INFO "Processing complete!";
            Log logger INFO
              "Cleaned up temp file: /tmp/livekit-recordings/room-42.mp3" ] |}).
Proof. vm_compute. reflexivity. Qed.

(** The recording starter and the hang-up tool against a server that
    answers, and against one that refuses. *)
Example start_recording_run :
  fst (Agent.start_recording Examples.agent_cfg Examples.livekit_up
         Examples.ctx42 Examples.fresh) = Return (Some "EG_1")
  /\ fst (Agent.start_recording Examples.agent_cfg Examples.livekit_down
            Examples.ctx42 Examples.fresh) = Return None.
Proof. split; reflexivity. Qed.

Example hang_up_run :
  fst (Agent.hang_up Examples.livekit_up Examples.fresh)
  = Return "Call ended successfully"
  /\ Agent.hang_up Examples.livekit_down Examples.fresh
     = (Raise (Exn "TwirpError" "unavailable"),
        {| fs := fs Examples.fresh;
           trace :=
             [ Log Agent.logger INFO
                 "Hang up tool called - initiating call termination";
               Sleep 0.5;
               DeleteRoom "room-42" ] |}).
Proof. split; reflexivity. Qed.

(** C1 at work: a job that runs to the end on a fresh machine leaves no
    temporary file. *)
Lemma temp_file_removed_after_success :
  ~ is_file
      (snd (process_recording Examples.cfg_openai Examples.up
              Examples.s3_path "room-42" Examples.fresh))
      "/tmp/livekit-recordings/room-42.mp3".
Proof.
  refine (proj1 (process_recording_removes_temp_file
           Examples.cfg_openai Examples.up Examples.s3_path "room-42"
           Examples.fresh
           (fst (process_recording Examples.cfg_openai Examples.up
                   Examples.s3_path "room-42" Examples.fresh))
           (snd (process_recording Examples.cfg_openai Examples.up
                   Examples.s3_path "room-42" Examples.fresh)) _ _)).
  - intros [c Hc]. vm_compute in Hc. discriminate.
  - apply surjective_pairing.
Defined.

(** C5 at work: the OpenAI integration is down, and its error comes out
    of the job, which has posted nothing. *)
Lemma transcription_failure_example :
  exists e' w',
    process_recording Examples.cfg_openai Examples.down Examples.s3_path
      "room-42" Examples.fresh = (Raise e', w')
    /\ e' = Exn "APIError" "service unavailable"
    /\ Forall no_post (trace w').
Proof.
  pose (cfg := Examples.cfg_openai).
  pose (svc := Examples.down).
  pose (w1 := snd (mkdir_exist_ok temp_dir
                     (add_event
                        (Log logger INFO
                           ("Processing recording: " ++ Examples.s3_path))
                        Examples.fresh))).
  pose (w2 := snd (download_from_s3 cfg svc Examples.s3_path
                     (local_path "room-42") w1)).
  pose (w3 := snd (transcribe_openai cfg svc (local_path "room-42") w2)).
  destruct (transcription_failure_propagates cfg svc Examples.s3_path
              "room-42" (transcribe_openai cfg svc)
              (Exn "APIError" "service unavailable")
              Examples.fresh w1 w2 w3)
    as (e' & w' & before & during & after
        & Hrun & Hsame & Ht2 & Ht3 & Ht' & Hb & Hd & Ha).
  - reflexivity.
  - vm_compute. reflexivity.
  - vm_compute. reflexivity.
  - vm_compute. reflexivity.
  - exists e', w'. split; [exact Hrun|]. split.
    + apply Hsame. vm_compute. discriminate.
    + rewrite Ht', Ht3, Ht2. simpl.
      repeat apply Forall_app_2; try assumption.
      * eapply Forall_impl; [exact Hb | intros ev [_ H]; exact H].
      * eapply Forall_impl; [exact Ha|].
        intros [] H; try discriminate H; reflexivity.
Defined.

(** C6 at work: the provider [whisper] is not one of the three. *)
Lemma unknown_provider_example :
  Forall silent
    (trace (snd (process_recording Examples.cfg_whisper Examples.up
                   Examples.s3_path "room-42" Examples.fresh))).
Proof.
  destruct (unknown_provider_aborts
              Examples.cfg_whisper Examples.up Examples.s3_path "room-42"
              Examples.fresh
              (fst (process_recording Examples.cfg_whisper Examples.up
                      Examples.s3_path "room-42" Examples.fresh))
              (snd (process_recording Examples.cfg_whisper Examples.up
                      Examples.s3_path "room-42" Examples.fresh)))
    as [(evs & Ht & Hs) _].
  - discriminate.
  - discriminate.
  - discriminate.
  - apply surjective_pairing.
  - rewrite Ht. exact Hs.
Defined.

(** C7 at work: one POST to the configured URL. *)
Lemma webhook_post_example :
  exists w',
    send_transcript_webhook Examples.cfg_openai Examples.up
      "room-42" "hello" Examples.s3_path Examples.fresh
    = (Return tt, w')
    /\ requests (trace w')
       = [HttpPost Examples.url
            (JObj [ ("room_name", JStr "room-42");
                    ("transcript", JStr "hello");
                    ("audio_file", JStr Examples.s3_path);
                    ("stt_provider", JStr "openai") ])
            30.0].
Proof.
  destruct (send_transcript_webhook_posts_once
              Examples.cfg_openai Examples.up
              "room-42" "hello" Examples.s3_path Examples.fresh)
    as [(evs & Hrun & Hpost & _) _].
  eexists. split; [exact Hrun|].
  destruct Hpost as [Hreq _]; [discriminate|]. exact Hreq.
Defined.

(** C10 at work: a path into another bucket, without the text
    [s3://recordings/] in it, is the key as it stands. *)
Lemma foreign_path_is_the_key :
  object_key Examples.cfg_openai "s3://archive/calls/room-42.mp3"
  = "s3://archive/calls/room-42.mp3".
Proof.
  destruct (download_from_s3_request
              Examples.cfg_openai Examples.up
              "s3://archive/calls/room-42.mp3" "/tmp/room-42.mp3"
              Examples.fresh)
    as (ok & f & evs & _ & _ & _ & Habsent).
  apply Habsent. intros Hocc. apply occursb_correct in Hocc.
  vm_compute in Hocc. discriminate.
Defined.

(** C10 as first stated fails on a path into another bucket whose key
    contains the text [s3://recordings/]: the storage is asked, in the
    configured bucket, for a key that is not the path. *)
Lemma foreign_path_is_not_always_the_key :
  requests
    (trace (snd (download_from_s3 Examples.cfg_openai Examples.up
                   "s3://archive/s3://recordings/room-42.mp3"
                   "/tmp/room-42.mp3" Examples.fresh)))
  = [S3DownloadFile "recordings" "s3://archive/room-42.mp3"
       "/tmp/room-42.mp3"]
  /\ "s3://archive/room-42.mp3"
     <> "s3://archive/s3://recordings/room-42.mp3".
Proof. split; [reflexivity | discriminate]. Qed.

(** C4 at work: the event of a failed egress is logged and dropped. *)
Lemma egress_failed_is_discarded :
  exists lvl msg, forall callee : json -> json -> M unit,
    handle_egress_webhook Examples.repr callee Examples.egress_failed
      Examples.fresh
    = (Return tt, add_event (Log logger lvl msg) Examples.fresh).
Proof.
  apply (incomplete_egress_is_discarded Examples.repr
           [ ("event", JStr "egress_ended");
             ("egressInfo",
              JObj [ ("roomName", JStr "test");
                     ("status", JStr "EGRESS_FAILED");
                     ("fileResults", Examples.file_results) ]) ]
           [ ("roomName", JStr "test");
             ("status", JStr "EGRESS_FAILED");
             ("fileResults", Examples.file_results) ]
           Examples.fresh).
  - reflexivity.
  - left. discriminate.
Defined.

(** C3 at the failing input: the event without [roomName] reaches the
    processor. *)
Lemma missing_room_name_example :
  handle_egress_webhook Examples.repr Examples.spy
    Examples.egress_ended_no_room Examples.fresh
  = (Return tt,
     {| fs := fs Examples.fresh;
        trace :=
          [ Log logger INFO "Egress complete for room: None";
            Print "process_recording(s3://bucket/calls/test.mp3, None)" ] |}).
Proof.
  unfold Examples.egress_ended_no_room.
  rewrite (missing_room_name_is_processed Examples.repr Examples.spy
             [ ("event", JStr "egress_ended");
               ("egressInfo",
                JObj [ ("status", JStr "EGRESS_COMPLETE");
                       ("fileResults", Examples.file_results) ]) ]
             [ ("status", JStr "EGRESS_COMPLETE");
               ("fileResults", Examples.file_results) ]
             [ ("location", JStr "s3://bucket/calls/test.mp3") ]
             [] (JStr "s3://bucket/calls/test.mp3") Examples.fresh
             eq_refl eq_refl eq_refl eq_refl eq_refl eq_refl eq_refl).
  reflexivity.
Defined.

(** The complete event of room [test] reaches the processor, with the
    location and the room name of the payload. *)
Example egress_ended_is_processed (callee : json -> json -> M unit) :
  handle_egress_webhook Examples.repr callee Examples.egress_ended
    Examples.fresh
  = callee (JStr "s3://bucket/calls/test.mp3") (JStr "test")
      (add_event (Log logger INFO "Egress complete for room: test")
         Examples.fresh).
Proof. reflexivity. Qed.

(** * More of process_recording.py: the stages one by one *)

Section Stages.

Import ProcessRecording.

Variable cfg : Config.
Variable svc : Services.

(** [w] with the events [evs] added to its trace. *)
Local Notation "w '+>' evs" := {| fs := fs w; trace := trace w ++ evs |}
  (at level 50, left associativity).

Lemma requests_app (a b : list event) :
  requests (a ++ b)%list = (requests a ++ requests b)%list.
Proof. apply List.filter_app. Qed.

Lemma requests_quiet (evs : list event) :
  Forall no_request evs -> requests evs = [].
Proof.
  induction 1 as [|ev evs Hev _ IH]; [reflexivity|].
  unfold requests in *. simpl. unfold no_request in Hev. rewrite Hev. exact IH.
Qed.

Lemma for_each_first_world {A} (l : list (list A)) (w : World) :
  snd (for_each first l w) = w.
Proof.
  induction l as [|x l IH]; [reflexivity|].
  simpl. unfold bind at 1. destruct x as [|a x]; [reflexivity|]. simpl.
  unfold bind at 1.
  destruct (for_each first l w) as [[ys|e] w1]; exact IH.
Qed.

Lemma for_each_first_heads {A} (d : A) (l : list (list A)) (w : World) :
  Forall (fun alternatives => alternatives <> []) l ->
  for_each first l w = (Return (List.map (List.hd d) l), w).
Proof.
  induction 1 as [|x l Hx _ IH]; [reflexivity|].
  simpl. unfold bind at 1. destruct x as [|a x]; [congruence|]. simpl.
  unfold bind at 1. rewrite IH. reflexivity.
Qed.

Lemma for_each_first_empty {A} (l : list (list A)) (w : World) :
  Exists (fun alternatives => alternatives = []) l ->
  for_each first l w
  = (Raise (Exn "IndexError" "list index out of range"), w).
Proof.
  induction 1 as [x l ->|x l _ IH]; [reflexivity|].
  simpl. unfold bind at 1. destruct x as [|a x]; [reflexivity|]. simpl.
  unfold bind at 1. rewrite IH. reflexivity.
Qed.

Ltac stt_done :=
  split; [reflexivity|]; eexists; split;
  [simpl; rewrite <- ?app_assoc; reflexivity|];
  simpl; eauto.

Lemma transcribe_openai_one_stt (p : string) (w : World) :
  one_stt (fst (transcribe_openai cfg svc p w)) w
    (snd (transcribe_openai cfg svc p w)).
Proof.
  unfold transcribe_openai, try_except, bind, construct, read_file, call,
    log, emit, add_event, ret, raise. simpl.
  destruct (openai_client svc _) as [[]|e]; simpl; [|stt_done].
  destruct (fs w !! p) as [[c|]|]; simpl; [|stt_done..].
  destruct (openai_transcriptions_create svc _ _ _); simpl; stt_done.
Qed.

Lemma transcribe_google_one_stt (p : string) (w : World) :
  one_stt (fst (transcribe_google svc p w)) w (snd (transcribe_google svc p w)).
Proof.
  unfold transcribe_google, try_except, bind, construct, read_file, call,
    log, emit, add_event, ret, raise. simpl.
  destruct (google_speech_client svc) as [[]|e]; simpl; [|stt_done].
  destruct (fs w !! p) as [[c|]|]; simpl; [|stt_done..].
  destruct (google_recognize svc _ _) as [results|e]; simpl; [|stt_done].
  match goal with
  | |- context [for_each first results ?w1] =>
      pose proof (for_each_first_world results w1) as Hw;
      destruct (for_each first results w1) as [[texts|e] w2]
  end; simpl in Hw; subst w2; simpl; stt_done.
Qed.

Lemma transcribe_deepgram_one_stt (p : string) (w : World) :
  one_stt (fst (transcribe_deepgram cfg svc p w)) w
    (snd (transcribe_deepgram cfg svc p w)).
Proof.
  unfold transcribe_deepgram, try_except, bind, construct, read_file, call,
    log, emit, add_event, ret, raise. simpl.
  destruct (deepgram_client svc _) as [[]|e]; simpl; [|stt_done].
  destruct (fs w !! p) as [[c|]|]; simpl; [|stt_done..].
  destruct (deepgram_transcribe_file svc _ _) as [channels|e]; simpl;
    [|stt_done].
  destruct channels as [|[|transcript alternatives] channels]; simpl; stt_done.
Qed.

Lemma selected_integration_one_stt (transcribe : string -> M string)
    (p : string) (w : World) (r : outcome string) (w' : World) :
  selected_integration cfg svc = Some transcribe ->
  transcribe p w = (r, w') ->
  one_stt r w w'.
Proof.
  unfold selected_integration.
  repeat case_match; intros [= <-] Hrun.
  - pose proof (transcribe_openai_one_stt p w) as Hone.
    rewrite Hrun in Hone. exact Hone.
  - pose proof (transcribe_google_one_stt p w) as Hone.
    rewrite Hrun in Hone. exact Hone.
  - pose proof (transcribe_deepgram_one_stt p w) as Hone.
    rewrite Hrun in Hone. exact Hone.
Qed.

(** ** Download *)

Lemma download_from_s3_shape (s3_path local_path : string) (w : World) :
  exists ok f evs,
    download_from_s3 cfg svc s3_path local_path w
      = (Return ok, {| fs := f; trace := trace w ++ evs |})
    /\ ((ok = false /\ requests evs = [] /\ f = fs w)
        \/ (requests evs
              = [S3DownloadFile (S3_BUCKET cfg) (object_key cfg s3_path)
                   local_path]
            /\ f = snd (download_file svc (S3_BUCKET cfg)
                          (object_key cfg s3_path) local_path (fs w)))).
Proof.
  unfold download_from_s3, try_except, bind, construct, call_fs, log, emit,
    add_event, set_fs, ret. simpl.
  destruct (boto3_client svc _ _ _ _) as [[]|e]; simpl.
  - destruct (download_file svc _ _ _ _) as [[[]|e] f]; simpl;
      rewrite <- !app_assoc; simpl;
      eexists _, _, _; (split; [reflexivity|]); right; split; reflexivity.
  - eexists _, _, _. split; [reflexivity|]. left. repeat split; reflexivity.
Qed.

(** X1.  [download_from_s3] never raises.  It returns [True] exactly when
    the storage client could be made and [download_file] returned; every
    exception is logged as an error and turned into [False].  When the
    client cannot be made the local filesystem is untouched; otherwise it
    is as [download_file] left it, also after a failure. *)
Theorem download_from_s3_outcome (s3_path local_path : string) (w : World) :
  let client :=
    boto3_client svc (S3_ACCESS_KEY cfg) (S3_SECRET_KEY cfg) (S3_REGION cfg)
      (S3_ENDPOINT cfg) in
  let transfer :=
    download_file svc (S3_BUCKET cfg) (object_key cfg s3_path) local_path
      (fs w) in
  exists ok evs,
    download_from_s3 cfg svc s3_path local_path w
      = (Return ok,
         {| fs := match client with
                  | Return _ => snd transfer
                  | Raise _ => fs w
                  end;
            trace := trace w ++ evs |})
    /\ (ok = true <->
        (exists u, client = Return u) /\ (exists u, fst transfer = Return u))
    /\ (ok = false ->
        exists e,
          (client = Raise e \/ fst transfer = Raise e)
          /\ last evs
             = Some (Log logger ERROR
                       ("Failed to download from S3: " ++ exn_str e))).
Proof.
  intros client transfer. subst client transfer.
  unfold download_from_s3, try_except, bind, construct, call_fs, log, emit,
    add_event, set_fs, ret. simpl.
  destruct (boto3_client svc _ _ _ _) as [[]|e]; simpl.
  - destruct (download_file svc _ _ _ _) as [[[]|e] f]; simpl;
      rewrite <- !app_assoc; simpl; eexists _, _;
      (split; [reflexivity|]); split.
    + split; eauto.
    + discriminate.
    + split; [discriminate|]. intros [_ [u Hu]]. discriminate.
    + intros _. exists e. split; [right|]; reflexivity.
  - eexists _, _. split; [reflexivity|]. split.
    + split; [discriminate|]. intros [[u Hu] _]. discriminate.
    + intros _. exists e. split; [left|]; reflexivity.
Qed.

(** ** Transcription *)


(** X3.  The Google transcript is the first alternative of every result,
    joined by single spaces (empty for no result).  A result without
    alternatives makes the integration raise [IndexError], after the
    request was sent, and no transcript comes back. *)
Theorem transcribe_google_joins
    (audio_path : string) (content : bytes) (results : list (list string))
    (w : World) :
  google_speech_client svc = Return tt ->
  fs w !! audio_path = Some (File content) ->
  google_recognize svc google_config content = Return results ->
  (Forall (fun alternatives => alternatives <> []) results ->
   transcribe_google svc audio_path w
   = (Return (py_join " " (List.map (List.hd "") results)),
      w +> [ Log logger INFO ("Transcribing with Google STT: " ++ audio_path);
             GoogleRecognize google_config content ]))
  /\ (Exists (fun alternatives => alternatives = []) results ->
      exists e,
        exn_class e = "IndexError"
        /\ transcribe_google svc audio_path w
           = (Raise e,
              w +> [ Log logger INFO
                       ("Transcribing with Google STT: " ++ audio_path);
                     GoogleRecognize google_config content;
                     Log logger ERROR ("Google STT failed: " ++ exn_str e) ])).
Proof.
  intros Hclient Hfile Hanswer.
  unfold transcribe_google, try_except, bind, construct, read_file, call,
    log, emit, add_event, ret, raise. simpl.
  rewrite Hclient. simpl. rewrite Hfile. simpl. rewrite Hanswer. simpl.
  split; intros Hres.
  - rewrite (for_each_first_heads "" _ _ Hres). simpl.
    rewrite <- !app_assoc. reflexivity.
  - rewrite (for_each_first_empty _ _ Hres). simpl.
    rewrite <- !app_assoc.
    exists (Exn "IndexError" "list index out of range").
    split; reflexivity.
Qed.

(** X4.  The Deepgram transcript is the first alternative of the first
    channel; an answer without channels, or whose first channel has no
    alternative, makes the integration raise [IndexError] after the
    request was sent. *)
Theorem transcribe_deepgram_first_channel
    (audio_path : string) (content : bytes) (channels : list (list string))
    (w : World) :
  deepgram_client svc (DEEPGRAM_API_KEY cfg) = Return tt ->
  fs w !! audio_path = Some (File content) ->
  deepgram_transcribe_file svc content deepgram_options = Return channels ->
  match channels with
  | (transcript :: _) :: _ =>
      transcribe_deepgram cfg svc audio_path w
      = (Return transcript,
         w +> [ Log logger INFO ("Transcribing with Deepgram: " ++ audio_path);
                DeepgramTranscribeFile content deepgram_options ])
  | _ =>
      exists e,
        exn_class e = "IndexError"
        /\ transcribe_deepgram cfg svc audio_path w
           = (Raise e,
              w +> [ Log logger INFO
                       ("Transcribing with Deepgram: " ++ audio_path);
                     DeepgramTranscribeFile content deepgram_options;
                     Log logger ERROR
                       ("Deepgram transcription failed: " ++ exn_str e) ])
  end.
Proof.
  intros Hclient Hfile Hanswer.
  unfold transcribe_deepgram, try_except, bind, construct, read_file, call,
    log, emit, add_event, ret, raise. simpl.
  rewrite Hclient. simpl. rewrite Hfile. simpl. rewrite Hanswer. simpl.
  destruct channels as [|[|transcript alternatives] rest]; simpl;
    rewrite <- !app_assoc; try reflexivity;
    (exists (Exn "IndexError" "list index out of range"); split; reflexivity).
Qed.

(** ** The job as a whole *)

Lemma deliver_shape (s3_path room_name transcript : string) (w : World) :
  exists evs,
    deliver cfg svc s3_path room_name transcript w = (Return tt, w +> evs)
    /\ requests evs
       = if str_truthy (TRANSCRIPT_WEBHOOK_URL cfg)
         then [HttpPost (TRANSCRIPT_WEBHOOK_URL cfg)
                 (payload cfg room_name transcript s3_path) 30.0]
         else [].
Proof.
  unfold deliver, send_transcript_webhook.
  destruct (str_truthy (TRANSCRIPT_WEBHOOK_URL cfg)); simpl.
  - unfold try_except, bind, call, log, emit, add_event, ret. simpl.
    destruct (http_post svc _ _ _); simpl; rewrite <- !app_assoc;
      eexists; split; reflexivity.
  - unfold bind, log, emit, add_event, ret. simpl. rewrite <- !app_assoc.
    eexists; split; reflexivity.
Qed.

Lemma cleanup_shape (p : string) (w : World) :
  cleanup p w
  = match fs w !! p with
    | Some (File _) =>
        (Return tt,
         {| fs := delete p (fs w);
            trace :=
              trace w ++ [Log logger INFO ("Cleaned up temp file: " ++ p)] |})
    | Some Dir => (Raise (IsADirectoryError p), w)
    | None => (Return tt, w)
    end.
Proof.
  unfold cleanup, bind, exists_, unlink, log, emit, add_event, set_fs, ret.
  simpl. destruct (fs w !! p) as [[c|]|] eqn:Hp; simpl; rewrite ?Hp;
    reflexivity.
Qed.

Lemma cleanup_trace (p : string) (w : World) :
  exists evs,
    trace (snd (cleanup p w)) = (trace w ++ evs)%list /\ requests evs = [].
Proof.
  rewrite cleanup_shape. destruct (fs w !! p) as [[c|]|]; simpl.
  - eexists. split; reflexivity.
  - exists []. split; [symmetry; apply app_nil_r | reflexivity].
  - exists []. split; [symmetry; apply app_nil_r | reflexivity].
Qed.

Lemma staged_prefix (post : list event) (s3_bucket key filename : string)
    (stt : event) :
  is_transcription stt = true ->
  post = [] \/ (exists ev, post = [ev] /\ is_http_post ev = true) ->
  staged (S3DownloadFile s3_bucket key filename :: stt :: post).
Proof.
  intros Hstt [->|(ev & -> & Hev)]; constructor; assumption.
Qed.

Lemma attempt_staged (s3_path room_name local_path : string) (w : World) :
  exists evs,
    trace (snd (attempt cfg svc s3_path room_name local_path w))
    = (trace w ++ evs)%list
    /\ staged (requests evs).
Proof.
  rewrite attempt_dispatch. unfold bind at 1.
  destruct (download_from_s3_shape s3_path local_path w)
    as (ok & f & evs0 & -> & Hshape).
  destruct ok; simpl.
  - destruct Hshape as [(Hok & _)|(Hreq & _)]; [discriminate|].
    destruct (selected_integration cfg svc) as [transcribe|] eqn:Hsel.
    + unfold bind at 1.
      destruct (transcribe local_path _) as [r w3] eqn:Hrun.
      destruct (selected_integration_one_stt _ _ _ _ _ Hsel Hrun)
        as (_ & evs1 & Ht1 & Hstt).
      destruct r as [transcript|e].
      * destruct Hstt as (stt & Hreq1 & Hstt).
        destruct (deliver_shape s3_path room_name transcript w3)
          as (evs2 & -> & Hreq2).
        simpl. exists (evs0 ++ evs1 ++ evs2)%list. split.
        { rewrite Ht1. simpl. rewrite <- !app_assoc. reflexivity. }
        rewrite !requests_app, Hreq, Hreq1, Hreq2. simpl.
        apply staged_prefix; [exact Hstt|].
        destruct (str_truthy _); [right; eexists; split; reflexivity|left].
        reflexivity.
      * simpl. exists (evs0 ++ evs1)%list. split.
        { rewrite Ht1. simpl. rewrite <- !app_assoc. reflexivity. }
        rewrite requests_app, Hreq.
        destruct Hstt as [->|(stt & -> & Hstt)]; simpl; constructor.
        exact Hstt.
    + unfold log, emit. simpl. eexists. split.
      { rewrite <- app_assoc. reflexivity. }
      rewrite requests_app, Hreq. simpl. constructor.
  - unfold log, emit. simpl. eexists. split.
    { rewrite <- app_assoc. reflexivity. }
    rewrite requests_app.
    destruct Hshape as [(_ & -> & _)|(-> & _)]; simpl; constructor.
Qed.

(** X5.  The requests of a job follow its stages: nothing, or one
    download, or one download and then one speech-to-text request, or
    these two and then one POST.  No stage is asked twice, and none is
    asked before the one it depends on. *)
Theorem process_recording_staged
    (s3_path room_name : string) (w : World) :
  exists evs,
    trace (snd (process_recording cfg svc s3_path room_name w))
    = (trace w ++ evs)%list
    /\ staged (requests evs).
Proof.
  unfold process_recording, bind at 1 2, log, emit. simpl.
  destruct (mkdir_exist_ok temp_dir _) as [[[]|e] w1] eqn:Hmk.
  - pose proof (started_trace s3_path w w1 Hmk) as Ht1.
    unfold try_finally.
    destruct (attempt_staged s3_path room_name (local_path room_name) w1)
      as (evs1 & Ht2 & Hst).
    destruct (attempt cfg svc _ _ _ w1) as [rb w2]. simpl in Ht2.
    destruct (cleanup_trace (local_path room_name) w2) as (evs2 & Ht3 & Hq).
    destruct (cleanup _ w2) as [[[]|e] w3]; simpl in *;
      exists ([Log logger INFO ("Processing recording: " ++ s3_path)]
              ++ evs1 ++ evs2)%list;
      (split; [rewrite Ht3, Ht2, Ht1, <- !app_assoc; reflexivity|]);
      rewrite !requests_app, Hq, app_nil_r; exact Hst.
  - simpl. unfold mkdir_exist_ok in Hmk. simpl in Hmk.
    exists [Log logger INFO ("Processing recording: " ++ s3_path)].
    split; [|constructor].
    repeat case_match; injection Hmk as _ <-; reflexivity.
Qed.

(** X6.  A job whose download succeeds and whose selected integration
    returns a transcript goes through every stage: it asks for the
    download, makes exactly one speech-to-text request, posts the
    transcript once if a webhook URL is configured (never otherwise), takes
    the temporary file away and returns normally, provided the temporary
    path is not a directory. *)
Theorem complete_job
    (s3_path room_name : string) (transcribe : string -> M string)
    (transcript : string) (w w1 w2 w3 : World) :
  selected_integration cfg svc = Some transcribe ->
  started s3_path w w1 ->
  download_from_s3 cfg svc s3_path (local_path room_name) w1
    = (Return true, w2) ->
  transcribe (local_path room_name) w2 = (Return transcript, w3) ->
  fs w2 !! local_path room_name <> Some Dir ->
  exists (w' : World) (evs : list event) (stt : event),
    process_recording cfg svc s3_path room_name w = (Return tt, w')
    /\ trace w' = (trace w ++ evs)%list
    /\ is_transcription stt = true
    /\ requests evs
       = (S3DownloadFile (S3_BUCKET cfg) (object_key cfg s3_path)
            (local_path room_name)
          :: stt
          :: (if str_truthy (TRANSCRIPT_WEBHOOK_URL cfg)
              then [HttpPost (TRANSCRIPT_WEBHOOK_URL cfg)
                      (payload cfg room_name transcript s3_path) 30.0]
              else []))
    /\ fs w' !! local_path room_name = None.
Proof.
  intros Hsel Hstart Hdl Hrun Hnd.
  rewrite (process_recording_started _ _ _ _ _ _ Hstart).
  rewrite attempt_dispatch, Hsel.
  unfold try_finally, bind. rewrite Hdl. simpl. rewrite Hrun.
  destruct (download_from_s3_shape s3_path (local_path room_name) w1)
    as (ok & f & evs0 & Hdl' & Hshape).
  rewrite Hdl in Hdl'. injection Hdl' as <- ->.
  destruct Hshape as [(Hok & _)|(Hreq0 & _)]; [discriminate|].
  destruct (selected_integration_one_stt _ _ _ _ _ Hsel Hrun)
    as (Hfs & evs1 & Ht1 & stt & Hreq1 & Hstt).
  destruct (deliver_shape s3_path room_name transcript w3)
    as (evs2 & -> & Hreq2).
  rewrite cleanup_shape. simpl. simpl in Hfs, Hnd. rewrite <- Hfs in Hnd.
  pose proof (started_trace _ _ _ Hstart) as Ht0.
  destruct (fs w3 !! local_path room_name) as [[c|]|] eqn:Hlp;
    [|congruence|].
  - eexists _, _, stt. split; [reflexivity|]. simpl. split.
    { rewrite Ht1. simpl. rewrite Ht0, <- !app_assoc. reflexivity. }
    split; [exact Hstt|]. split.
    + rewrite !requests_app, Hreq0, Hreq1, Hreq2. simpl.
      rewrite app_nil_r. reflexivity.
    + apply lookup_delete_eq.
  - eexists _, _, stt. split; [reflexivity|]. simpl. split.
    { rewrite Ht1. simpl. rewrite Ht0, <- !app_assoc. reflexivity. }
    split; [exact Hstt|]. split.
    + rewrite !requests_app, Hreq0, Hreq1, Hreq2. reflexivity.
    + exact Hlp.
Qed.

(** X7.  A failed download ends the job quietly: the failure is logged as
    an error, no integration is called, nothing is posted, what the
    storage client may have left at the temporary path is taken away, and
    [process_recording] returns normally (it raises only if the temporary
    path is a directory). *)
Theorem failed_download_ends_job
    (s3_path room_name : string) (w w1 w2 : World) :
  started s3_path w w1 ->
  download_from_s3 cfg svc s3_path (local_path room_name) w1
    = (Return false, w2) ->
  process_recording cfg svc s3_path room_name w
  = cleanup (local_path room_name)
      (add_event (Log logger ERROR "Failed to download audio file") w2)
  /\ exists evs,
       trace (snd (process_recording cfg svc s3_path room_name w))
       = (trace w ++ evs)%list
       /\ Forall silent evs.
Proof.
  intros Hstart Hdl.
  rewrite (process_recording_started _ _ _ _ _ _ Hstart).
  unfold try_finally, attempt, bind. rewrite Hdl. simpl.
  unfold log, emit.
  split; [destruct (cleanup _ _) as [[[]|e] w4]; reflexivity|].
  destruct (download_from_s3_silent _ _ _ _ _ _ _ Hdl) as (evs0 & Ht0 & Hs0).
  destruct (cleanup _ _) as [rf w4] eqn:Hclean.
  destruct (cleanup_no_request _ _ _ _ Hclean) as (evs2 & Ht2 & Hs2).
  exists ([Log logger INFO ("Processing recording: " ++ s3_path)] ++ evs0
          ++ [Log logger ERROR "Failed to download audio file"] ++ evs2)%list.
  split.
  - destruct rf; simpl; rewrite Ht2; simpl;
      rewrite Ht0, (started_trace _ _ _ Hstart), <- !app_assoc; reflexivity.
  - repeat apply Forall_app_2; try assumption.
    + repeat constructor.
    + repeat constructor.
    + eapply Forall_impl; [exact Hs2|].
      intros [] Hev; try discriminate Hev; split; reflexivity.
Qed.

(** X8.  Past the creation of its temporary directory, a job raises in two
    cases only: the selected integration raised after a successful
    download (the job raises that exception), or the cleanup raised, the
    temporary path being a directory that it cannot unlink.  A failed
    download, an unknown provider and a failed POST never make it raise. *)
Theorem process_recording_raises_only_if
    (s3_path room_name : string) (e : exn) (w w1 w' : World) :
  started s3_path w w1 ->
  process_recording cfg svc s3_path room_name w = (Raise e, w') ->
  (exists transcribe w2 w3,
     selected_integration cfg svc = Some transcribe
     /\ download_from_s3 cfg svc s3_path (local_path room_name) w1
        = (Return true, w2)
     /\ transcribe (local_path room_name) w2 = (Raise e, w3))
  \/ (exists w2,
        fs w2 !! local_path room_name = Some Dir
        /\ cleanup (local_path room_name) w2 = (Raise e, w')).
Proof.
  intros Hstart.
  rewrite (process_recording_started _ _ _ _ _ _ Hstart).
  unfold try_finally. rewrite attempt_dispatch. unfold bind at 1.
  destruct (download_from_s3_shape s3_path (local_path room_name) w1)
    as (ok & f & evs0 & Hdl & _).
  rewrite Hdl.
  assert (Hclean : forall (rb : outcome unit) w2,
            (let (rf, w3) := cleanup (local_path room_name) w2 in
             match rf with
             | Return _ => (rb, w3)
             | Raise e' => (Raise e', w3)
             end) = (Raise e, w') ->
            rb = Raise e
            \/ (exists w2,
                  fs w2 !! local_path room_name = Some Dir
                  /\ cleanup (local_path room_name) w2 = (Raise e, w'))).
  { intros rb w2. rewrite cleanup_shape.
    destruct (fs w2 !! _) as [[c|]|] eqn:Hlp; intros [= ]; subst; auto.
    right. exists w'. rewrite cleanup_shape, Hlp. split; reflexivity. }
  destruct ok; simpl.
  - destruct (selected_integration cfg svc) as [transcribe|] eqn:Hsel.
    + unfold bind at 1.
      destruct (transcribe _ _) as [[transcript|e1] w3] eqn:Hrun.
      * destruct (deliver_shape s3_path room_name transcript w3)
          as (evs2 & -> & _).
        intros H. apply Hclean in H as [H|H]; [discriminate | right; exact H].
      * intros H. apply Hclean in H as [H|H]; [|right; exact H].
        injection H as ->. left.
        exists transcribe, {| fs := f; trace := trace w1 ++ evs0 |}, w3.
        split; [reflexivity|]. split; [reflexivity | exact Hrun].
    + unfold log, emit.
      intros H. apply Hclean in H as [H|H]; [discriminate | right; exact H].
  - unfold log, emit.
    intros H. apply Hclean in H as [H|H]; [discriminate | right; exact H].
Qed.



End Stages.

(** * Names, paths and keys *)

Section Names.

Import ProcessRecording.


Lemma append_assoc (a b c : string) : a ++ b ++ c = (a ++ b) ++ c.
Proof.
  induction a as [|x a IH]; [reflexivity|].
  rewrite !append_cons, IH. reflexivity.
Qed.



(** X12.  Started from one environment, the recording starter and the
    command line of the processor meet on the same object: for a room
    name in which the text [s3://<S3_BUCKET>/] does not occur, the bucket
    and the key that [download_from_s3] asks for, given the path that
    [main] builds, are the bucket and the file path of the egress
    request. *)
Theorem recorded_object_is_downloaded
    (env : gmap string string) (room_name : string) :
  let acfg := Environment.agent_config env in
  let pcfg := Environment.processor_config env in
  ~ occurs ("s3://" ++ S3_BUCKET pcfg ++ "/")
      ("calls/" ++ room_name ++ ".mp3") ->
  List.map (fun o => (bucket (s3 o), filepath o))
    (file_outputs (Agent.egress_request acfg room_name))
  = [ (S3_BUCKET pcfg,
       object_key pcfg
         ("s3://" ++ S3_BUCKET pcfg ++ "/calls/" ++ room_name ++ ".mp3")) ].
Proof.
  intros acfg pcfg Habsent. subst acfg pcfg.
  unfold object_key, Agent.egress_request, Environment.agent_config,
    Environment.processor_config in *.
  cbn [S3_BUCKET Agent.S3_BUCKET file_outputs List.map bucket s3 filepath] in *.
  set (B := Environment.getenv env "S3_BUCKET" "") in *.
  replace ("s3://" ++ B ++ "/calls/" ++ room_name ++ ".mp3")
    with (("s3://" ++ B ++ "/") ++ "calls/" ++ room_name ++ ".mp3").
  - rewrite py_replace_prefix by discriminate.
    rewrite (py_replace_absent _ _ _ Habsent). reflexivity.
  - rewrite <- !append_assoc. reflexivity.
Qed.

End Names.

(** * More of the webhook handler, the command line and the server *)

Section Handler.

Import ProcessRecording.

Variable repr : json -> string.

(** X13.  A completion event of a finished egress is handed to the
    processor with the location of its first file result and its room
    name; further file results are ignored. *)
Theorem complete_event_is_processed
    (callee : json -> json -> M unit) (d e f : list (string * json))
    (rest : list json) (location : json) (w : World) :
  dict_get "event" JNull d = JStr "egress_ended" ->
  dict_get "egressInfo" (JObj []) d = JObj e ->
  dict_get "status" JNull e = JStr "EGRESS_COMPLETE" ->
  dict_get "fileResults" (JList []) e = JList (JObj f :: rest) ->
  dict_get "location" JNull f = location ->
  truthy location = true ->
  handle_egress_webhook repr callee (JObj d) w
  = callee location (dict_get "roomName" JNull e)
      (add_event
         (Log logger INFO
            ("Egress complete for room: "
             ++ py_str repr (dict_get "roomName" JNull e)))
         w).
Proof.
  intros Hev Hinfo Hst Hfr Hloc Htrue.
  rewrite (handle_egress_webhook_guards repr callee _ _ Hinfo), Hev, Hst, Hfr.
  simpl. unfold bind at 1, ret at 1, py_get.
  unfold bind at 1, ret at 1. rewrite Hloc, Htrue. reflexivity.
Qed.

(** X14.  An event of any other type is ignored with one log line,
    whatever else the payload holds: the handler does not look at
    [egressInfo], and does not call the processor. *)
Theorem other_events_are_ignored
    (d : list (string * json)) (w : World) :
  dict_get "event" JNull d <> JStr "egress_ended" ->
  forall callee : json -> json -> M unit,
    handle_egress_webhook repr callee (JObj d) w
    = (Return tt,
       add_event
         (Log logger INFO
            ("Ignoring event: " ++ py_str repr (dict_get "event" JNull d)))
         w).
Proof.
  intros Hev callee. apply ne_str_true in Hev.
  unfold handle_egress_webhook, py_get, bind at 1, ret. rewrite Hev.
  reflexivity.
Qed.

(** X15.  The handler does not discard everything it cannot use: a
    payload that is not a JSON object, a completion event whose
    [egressInfo] is there but is not an object (a [null], say), and a
    complete event whose first file result is not an object (a bare
    string, say) make it raise [AttributeError] before anything is logged.
    The processor is not called. *)
Theorem malformed_payload_raises (w : World) :
  (forall v, (forall kvs, v <> JObj kvs) ->
     forall callee : json -> json -> M unit,
       handle_egress_webhook repr callee v w
       = (Raise (AttributeError v "get"), w))
  /\ (forall d v,
        dict_get "event" JNull d = JStr "egress_ended" ->
        assoc "egressInfo" d = Some v ->
        (forall kvs, v <> JObj kvs) ->
        forall callee : json -> json -> M unit,
          handle_egress_webhook repr callee (JObj d) w
          = (Raise (AttributeError v "get"), w))
  /\ (forall d e v rest,
        dict_get "event" JNull d = JStr "egress_ended" ->
        dict_get "egressInfo" (JObj []) d = JObj e ->
        dict_get "status" JNull e = JStr "EGRESS_COMPLETE" ->
        dict_get "fileResults" (JList []) e = JList (v :: rest) ->
        (forall kvs, v <> JObj kvs) ->
        forall callee : json -> json -> M unit,
          handle_egress_webhook repr callee (JObj d) w
          = (Raise (AttributeError v "get"), w)).
Proof.
  split; [|split].
  - intros v Hv callee. unfold handle_egress_webhook, py_get, bind at 1.
    destruct v; try reflexivity. exfalso. eapply Hv. reflexivity.
  - intros d v Hev Hinfo Hv callee.
    assert (Hinfo' : dict_get "egressInfo" (JObj []) d = v)
      by (unfold dict_get; rewrite Hinfo; reflexivity).
    unfold handle_egress_webhook, py_get, bind at 1, ret. rewrite Hev.
    simpl. unfold bind at 1. rewrite Hinfo'. unfold bind at 1.
    destruct v; try reflexivity. exfalso. eapply Hv. reflexivity.
  - intros d e v rest Hev Hinfo Hst Hfr Hv callee.
    rewrite (handle_egress_webhook_guards repr callee _ _ Hinfo).
    rewrite Hev, Hst, Hfr. simpl. unfold bind at 1, ret at 1, py_get.
    destruct v; try reflexivity. exfalso. eapply Hv. reflexivity.
Qed.

End Handler.

Section CommandLine.

Import ProcessRecording.

Variable cfg : Config.
Variable svc : Services.

(** X16.  Run without a room name, the script prints its two lines of
    usage and does nothing else; run with more than one argument, it uses
    the first and ignores the rest. *)
Theorem main_arguments (w : World) :
  (forall argv, (length argv <= 1)%nat ->
     main cfg svc argv w
     = (Return tt,
        {| fs := fs w;
           trace := trace w ++
             [ Print "Usage: python process_recording.py <room_name>";
               Print "Or deploy as webhook handler for LiveKit egress events"
             ] |}))
  /\ (forall prog room_name rest,
        main cfg svc (prog :: room_name :: rest) w
        = main cfg svc [prog; room_name] w).
Proof.
  split.
  - intros [|prog [|room_name rest]] Hlen; simpl in Hlen; try lia;
      unfold main, bind, emit, add_event; simpl;
      rewrite <- app_assoc; reflexivity.
  - reflexivity.
Qed.

End CommandLine.

Section Server.

Import WebhookServer.

Variable repr : json -> string.

(** X17.  The endpoint never fails.  A body that parses to a JSON object
    is acknowledged with [{"status": "ok"}] and handed to one background
    task, whatever its event type and whether or not the handler will be
    able to use it.  A body that does not parse, or parses to anything but
    an object, is answered with [{"status": "error", "message": ...}]
    carrying the text of the exception, and no task is started. *)
Theorem egress_webhook_replies (request_json : outcome json) (w : World) :
  exists reply line,
    egress_webhook repr request_json w
    = (Return reply, add_event (Log logger (fst line) (snd line)) w)
    /\ match request_json with
       | Return (JObj d) =>
           reply = {| response := JObj [("status", JStr "ok")];
                      background := [JObj d] |}
       | Return v =>
           reply = {| response :=
                        JObj [ ("status", JStr "error");
                               ("message",
                                JStr (exn_str (AttributeError v "get"))) ];
                      background := [] |}
       | Raise e =>
           reply = {| response :=
                        JObj [ ("status", JStr "error");
                               ("message", JStr (exn_str e)) ];
                      background := [] |}
       end.
Proof.
  unfold egress_webhook, try_except, bind, ProcessRecording.construct,
    py_get, log, emit, ret, raise.
  destruct request_json as [v|e]; simpl.
  - destruct v; simpl; eexists _, (_, _); split; reflexivity.
  - eexists _, (_, _). split; reflexivity.
Qed.

End Server.

(** * Configuration from the environment *)

Section Configuration.

Import Environment.

Variable env : gmap string string.

Lemma truthy_getenv_empty (key : string) :
  str_truthy (getenv env key "") = true
  <-> exists v, env !! key = Some v /\ v <> "".
Proof.
  unfold getenv. destruct (env !! key) as [[|c v]|]; simpl.
  - split; [discriminate | intros (v & [= <-] & Hv); congruence].
  - split; [|reflexivity].
    intros _. eexists. split; [reflexivity | discriminate].
  - split; [discriminate | intros (v & Hv & _); discriminate].
Qed.

Lemma truthy_getenv_region :
  str_truthy (getenv env "S3_REGION" "eu-central-1") = true
  <-> env !! "S3_REGION" <> Some "".
Proof.
  unfold getenv. destruct (env !! "S3_REGION") as [[|c v]|]; simpl.
  - split; [discriminate | congruence].
  - split; [discriminate | reflexivity].
  - split; [discriminate | reflexivity].
Qed.

Lemma enabled_iff :
  Agent.ENABLE_RECORDING (agent_config env) = true
  <-> exists v, env !! "ENABLE_RECORDING" = Some v /\ lower v = "true".
Proof.
  unfold agent_config, getenv. simpl.
  destruct (env !! "ENABLE_RECORDING") as [v|].
  - rewrite String.eqb_eq. split; [eauto | intros (v' & [= <-] & H); exact H].
  - split; [discriminate | intros (v & Hv & _); discriminate].
Qed.

Lemma complete_iff :
  Agent.credentials_complete (agent_config env) = true
  <-> (exists b, env !! "S3_BUCKET" = Some b /\ b <> "")
      /\ env !! "S3_REGION" <> Some ""
      /\ (exists a, env !! "ACCESS_SUPABASE" = Some a /\ a <> "")
      /\ (exists s, env !! "SECRET_SUPABASE" = Some s /\ s <> "").
Proof.
  unfold Agent.credentials_complete, agent_config. simpl.
  rewrite <- !truthy_getenv_empty, <- truthy_getenv_region.
  rewrite !andb_true_iff. tauto.
Qed.

(** X18.  From the environment to the egress service: [start_recording]
    asks for an egress exactly when [ENABLE_RECORDING] is set to [true] in
    any letter case, [S3_BUCKET], [ACCESS_SUPABASE] and [SECRET_SUPABASE]
    are set and not empty, and [S3_REGION] is not set to the empty string
    (unset, it has a default).  Otherwise nothing is asked. *)
Theorem recording_requires_configuration
    (svc : Agent.Services) (ctx : Agent.JobContext) (w : World) :
  exists res evs,
    Agent.start_recording (agent_config env) svc ctx w
      = (Return res, {| fs := fs w; trace := trace w ++ evs |})
    /\ (requests evs <> [] <->
        (exists v, env !! "ENABLE_RECORDING" = Some v /\ lower v = "true")
        /\ (exists b, env !! "S3_BUCKET" = Some b /\ b <> "")
        /\ env !! "S3_REGION" <> Some ""
        /\ (exists a, env !! "ACCESS_SUPABASE" = Some a /\ a <> "")
        /\ (exists s, env !! "SECRET_SUPABASE" = Some s /\ s <> "")).
Proof.
  setoid_rewrite <- enabled_iff. setoid_rewrite <- complete_iff.
  unfold Agent.start_recording.
  destruct (Agent.ENABLE_RECORDING (agent_config env)); simpl.
  - destruct (Agent.credentials_complete (agent_config env)); simpl.
    + unfold try_except, bind, Agent.log, emit, call, add_event, ret. simpl.
      destruct (Agent.start_room_composite_egress svc _); simpl;
        rewrite <- !app_assoc; simpl; eexists _, _;
        (split; [reflexivity|]); simpl; split; auto; discriminate.
    + unfold bind, Agent.log, emit, add_event, ret. simpl.
      rewrite <- !app_assoc. simpl. eexists _, _. split; [reflexivity|].
      simpl. split; [congruence | intros [_ H]; discriminate].
  - unfold bind, Agent.log, emit, add_event, ret. simpl.
    eexists _, _. split; [reflexivity|].
    simpl. split; [congruence | intros [H _]; discriminate].
Qed.

(** X19.  From the environment to the integration: with [STT_PROVIDER]
    unset a job transcribes with OpenAI; no integration is selected
    exactly when the variable is set to something other than [openai],
    [google] and [deepgram], letter for letter. *)
Theorem provider_selection (svc : ProcessRecording.Services) :
  (env !! "STT_PROVIDER" = None ->
   selected_integration (processor_config env) svc
   = Some (ProcessRecording.transcribe_openai (processor_config env) svc))
  /\ (selected_integration (processor_config env) svc = None
      <-> exists v, env !! "STT_PROVIDER" = Some v
                    /\ v <> "openai" /\ v <> "google" /\ v <> "deepgram").
Proof.
  unfold selected_integration, processor_config, getenv. simpl.
  destruct (env !! "STT_PROVIDER") as [v|]; simpl.
  - split; [discriminate|].
    destruct (String.eqb_spec v "openai") as [->|H1].
    { split; [discriminate | intros (v & [= <-] & H & _); congruence]. }
    destruct (String.eqb_spec v "google") as [->|H2].
    { split; [discriminate | intros (v & [= <-] & _ & H & _); congruence]. }
    destruct (String.eqb_spec v "deepgram") as [->|H3].
    { split; [discriminate | intros (v & [= <-] & _ & _ & H); congruence]. }
    split; [intros _; exists v; auto | reflexivity].
  - split; [reflexivity|].
    split; [discriminate | intros (v & Hv & _); discriminate].
Qed.

End Configuration.

(** * The entry point of a call *)

Section EntrypointProperties.

Import Entrypoint.

Variable cfg : Agent.Config.
Variable svc : Agent.Services.
Variable settings : Settings.
Variable session : Session.

Local Notation "w '+>' evs" := {| fs := fs w; trace := trace w ++ evs |}
  (at level 50, left associativity).

(** X20.  A time zone that the clock does not know is not fatal: the
    entry point logs a warning and goes on with the time of [UTC] and the
    name [UTC].  If [UTC] cannot be resolved either, that exception
    leaves [entrypoint], before any recording or session is started. *)
Theorem timezone_falls_back_to_utc (ctx : Agent.JobContext) (e : exn)
    (w : World) :
  connect session = Return tt ->
  local_time session (AGENT_TIMEZONE settings) = Raise e ->
  let w2 :=
    w +> [ Log Agent.logger INFO ("Call started - Room: " ++ Agent.room ctx);
           Log Agent.logger WARNING
             ("Invalid timezone '" ++ AGENT_TIMEZONE settings
              ++ "', falling back to UTC: " ++ exn_str e) ] in
  entrypoint cfg svc settings session ctx w
  = match local_time session "UTC" with
    | Return time_str => converse cfg svc settings session ctx time_str "UTC" w2
    | Raise e2 => (Raise e2, w2)
    end.
Proof.
  intros Hconnect Hzone w2. subst w2.
  unfold entrypoint, current_time, try_except, bind at 1 2 3, await,
    ProcessRecording.construct, log, Agent.log, emit, add_event.
  rewrite Hconnect. simpl. unfold bind at 1. rewrite Hzone.
  unfold bind at 1 2, ret. simpl.
  destruct (local_time session "UTC"); simpl; rewrite <- !app_assoc;
    reflexivity.
Qed.


(** X22.  A recording that has been started is not stopped when the
    session fails to start: the exception of [session.start] leaves the
    entry point with the egress request made and nothing else asked of
    the egress service. *)
Theorem session_failure_leaves_recording
    (ctx : Agent.JobContext) (time_str timezone_name egress_id : string)
    (e : exn) (w : World) :
  Agent.ENABLE_RECORDING cfg = true ->
  Agent.credentials_complete cfg = true ->
  Agent.start_room_composite_egress svc
    (Agent.egress_request cfg (Agent.room ctx)) = Return egress_id ->
  realtime_model session "eve" (XAI_API_KEY settings) = Return tt ->
  agent_session session = Return tt ->
  session_start session (Agent.room ctx)
    (instructions time_str timezone_name) = Raise e ->
  exists evs,
    converse cfg svc settings session ctx time_str timezone_name w
    = (Raise e, w +> evs)
    /\ requests evs
       = [StartRoomCompositeEgress (Agent.egress_request cfg (Agent.room ctx))].
Proof.
  intros Hen Hcc Hegress Hmodel Hsession Hstart.
  unfold converse, Assistant, await, ProcessRecording.construct, log.
  rewrite Hmodel, Hsession.
  unfold Agent.start_recording. rewrite Hen, Hcc. simpl.
  unfold try_except, bind, Agent.log, emit, call, add_event, ret. simpl.
  rewrite Hegress. simpl. rewrite Hstart.
  destruct egress_id; simpl; rewrite <- ?app_assoc; simpl;
    eexists; split; reflexivity.
Qed.

End EntrypointProperties.

(** * The further statements at concrete inputs *)


(** X1 at work: storage is down, the download gives [False]. *)
Lemma download_refused_example :
  fst (download_from_s3 Examples.cfg_openai Examples2.storage_down
         Examples.s3_path "/tmp/room-42.mp3" Examples.fresh)
  = Return false.
Proof.
  destruct (download_from_s3_outcome Examples.cfg_openai
              Examples2.storage_down Examples.s3_path "/tmp/room-42.mp3"
              Examples.fresh) as (ok & evs & Hrun & Htrue & _).
  rewrite Hrun. simpl. f_equal.
  destruct ok; [|reflexivity].
  destruct (proj1 Htrue eq_refl) as [_ [u Hu]]. discriminate Hu.
Defined.


(** X3 at work: two results, one transcript. *)
Lemma transcribe_google_example :
  fst (transcribe_google Examples.up "/tmp/livekit-recordings/room-42.mp3"
         Examples2.downloaded)
  = Return "hello world".
Proof.
  destruct (transcribe_google_joins Examples.up
              "/tmp/livekit-recordings/room-42.mp3" []
              [["hello"]; ["world"]] Examples2.downloaded
              eq_refl eq_refl eq_refl) as [Hrun _].
  rewrite Hrun; [reflexivity|].
  repeat constructor; discriminate.
Defined.

(** X4 at work. *)
Lemma transcribe_deepgram_example :
  fst (transcribe_deepgram Examples.cfg_openai Examples.up
         "/tmp/livekit-recordings/room-42.mp3" Examples2.downloaded)
  = Return "hello".
Proof.
  rewrite (transcribe_deepgram_first_channel Examples.cfg_openai Examples.up
             "/tmp/livekit-recordings/room-42.mp3" [] [["hello"]]
             Examples2.downloaded eq_refl eq_refl eq_refl).
  reflexivity.
Defined.

(** X6 at work: the whole job, with its three requests. *)
Lemma complete_job_example :
  exists w',
    process_recording Examples.cfg_openai Examples.up Examples.s3_path
      "room-42" Examples.fresh = (Return tt, w')
    /\ length (requests (trace w')) = 3%nat.
Proof.
  pose (cfg := Examples.cfg_openai).
  pose (svc := Examples.up).
  pose (w1 := snd (mkdir_exist_ok temp_dir
                     (add_event
                        (Log logger INFO
                           ("Processing recording: " ++ Examples.s3_path))
                        Examples.fresh))).
  pose (w2 := snd (download_from_s3 cfg svc Examples.s3_path
                     (local_path "room-42") w1)).
  pose (w3 := snd (transcribe_openai cfg svc (local_path "room-42") w2)).
  destruct (complete_job cfg svc Examples.s3_path "room-42"
              (transcribe_openai cfg svc) "hello" Examples.fresh w1 w2 w3)
    as (w' & evs & stt & Hrun & Ht & _ & Hreq & _).
  - reflexivity.
  - vm_compute. reflexivity.
  - vm_compute. reflexivity.
  - vm_compute. reflexivity.
  - vm_compute. discriminate.
  - exists w'. split; [exact Hrun|].
    rewrite Ht. change (trace Examples.fresh ++ evs)%list with evs.
    rewrite Hreq. reflexivity.
Defined.

(** X7 at work: storage is down, the job ends without a transcript. *)
Lemma failed_download_example :
  Forall silent
    (trace (snd (process_recording Examples.cfg_openai
                   Examples2.storage_down Examples.s3_path "room-42"
                   Examples.fresh))).
Proof.
  pose (w1 := snd (mkdir_exist_ok temp_dir
                     (add_event
                        (Log logger INFO
                           ("Processing recording: " ++ Examples.s3_path))
                        Examples.fresh))).
  pose (w2 := snd (download_from_s3 Examples.cfg_openai
                     Examples2.storage_down Examples.s3_path
                     (local_path "room-42") w1)).
  destruct (failed_download_ends_job Examples.cfg_openai
              Examples2.storage_down Examples.s3_path "room-42"
              Examples.fresh w1 w2) as (_ & evs & Ht & Hs).
  - vm_compute. reflexivity.
  - vm_compute. reflexivity.
  - rewrite Ht. exact Hs.
Defined.

(** X8 at work: the job raised, and it was the integration. *)
Lemma raise_cases_example :
  (exists transcribe w2 w3,
     selected_integration Examples.cfg_openai Examples.down = Some transcribe
     /\ download_from_s3 Examples.cfg_openai Examples.down Examples.s3_path
          (local_path "room-42")
          (snd (mkdir_exist_ok temp_dir
                  (add_event
                     (Log logger INFO
                        ("Processing recording: " ++ Examples.s3_path))
                     Examples.fresh)))
        = (Return true, w2)
     /\ transcribe (local_path "room-42") w2
        = (Raise (Exn "APIError" "service unavailable"), w3))
  \/ (exists w2,
        fs w2 !! local_path "room-42" = Some Dir
        /\ cleanup (local_path "room-42") w2
           = (Raise (Exn "APIError" "service unavailable"),
              snd (process_recording Examples.cfg_openai Examples.down
                     Examples.s3_path "room-42" Examples.fresh))).
Proof.
  apply (process_recording_raises_only_if Examples.cfg_openai Examples.down
           Examples.s3_path "room-42" (Exn "APIError" "service unavailable")
           Examples.fresh _
           (snd (process_recording Examples.cfg_openai Examples.down
                   Examples.s3_path "room-42" Examples.fresh))).
  - vm_compute. reflexivity.
  - vm_compute. reflexivity.
Defined.




(** X12 at work: the key of room 42. *)
Lemma recorded_object_example :
  object_key (Environment.processor_config Examples2.env)
    "s3://recordings/calls/room-42.mp3"
  = "calls/room-42.mp3".
Proof.
  assert (Habsent : ~ occurs "s3://recordings/" "calls/room-42.mp3").
  { intros Hocc. apply occursb_correct in Hocc.
    vm_compute in Hocc. discriminate. }
  pose proof (recorded_object_is_downloaded Examples2.env "room-42" Habsent)
    as Heq.
  apply (f_equal (fun l => match l with
                           | (_, key) :: _ => key
                           | [] => ""
                           end)) in Heq.
  symmetry. exact Heq.
Defined.

(** X13 at work: the event of room [test], seen by a processor that
    prints its arguments. *)
Lemma complete_event_example :
  handle_egress_webhook Examples.repr Examples.spy Examples.egress_ended
    Examples.fresh
  = (Return tt,
     {| fs := fs Examples.fresh;
        trace :=
          [ Log logger INFO "Egress complete for room: test";
            Print "process_recording(s3://bucket/calls/test.mp3, test)" ] |}).
Proof.
  unfold Examples.egress_ended.
  rewrite (complete_event_is_processed Examples.repr Examples.spy
             [ ("event", JStr "egress_ended");
               ("egressInfo",
                JObj [ ("roomName", JStr "test");
                       ("status", JStr "EGRESS_COMPLETE");
                       ("fileResults", Examples.file_results) ]) ]
             [ ("roomName", JStr "test");
               ("status", JStr "EGRESS_COMPLETE");
               ("fileResults", Examples.file_results) ]
             [ ("location", JStr "s3://bucket/calls/test.mp3") ]
             [] (JStr "s3://bucket/calls/test.mp3") Examples.fresh
             eq_refl eq_refl eq_refl eq_refl eq_refl eq_refl).
  reflexivity.
Defined.

(** X14 at work: the start of an egress is not the end of one. *)
Lemma egress_started_is_ignored :
  handle_egress_webhook Examples.repr Examples.spy
    (JObj [("event", JStr "egress_started"); ("egressInfo", JNull)])
    Examples.fresh
  = (Return tt,
     {| fs := fs Examples.fresh;
        trace := [Log logger INFO "Ignoring event: egress_started"] |}).
Proof.
  rewrite (other_events_are_ignored Examples.repr
             [("event", JStr "egress_started"); ("egressInfo", JNull)]
             Examples.fresh).
  - reflexivity.
  - discriminate.
Defined.

(** X15 at work: [egressInfo] is [null]. *)
Lemma null_egress_info_raises :
  handle_egress_webhook Examples.repr Examples.spy
    (JObj [("event", JStr "egress_ended"); ("egressInfo", JNull)])
    Examples.fresh
  = (Raise (Exn "AttributeError" "'NoneType' object has no attribute 'get'"),
     Examples.fresh).
Proof.
  destruct (malformed_payload_raises Examples.repr Examples.fresh)
    as (_ & Hinfo & _).
  rewrite (Hinfo [("event", JStr "egress_ended"); ("egressInfo", JNull)]
             JNull eq_refl eq_refl).
  - reflexivity.
  - discriminate.
Defined.

(** X16 at work: the script run bare. *)
Lemma usage_example :
  requests
    (trace (snd (main Examples.cfg_openai Examples.up ["process_recording.py"]
                   Examples.fresh)))
  = [].
Proof.
  destruct (main_arguments Examples.cfg_openai Examples.up Examples.fresh)
    as [Husage _].
  rewrite (Husage ["process_recording.py"]); [reflexivity|].
  simpl. lia.
Defined.

(** X18 at work: recording is switched on by [True], with the region left
    to its default. *)
Lemma recording_configured_example :
  requests
    (trace (snd (Agent.start_recording
                   (Environment.agent_config Examples2.env)
                   Examples.livekit_up Examples.ctx42 Examples.fresh)))
  <> [].
Proof.
  destruct (recording_requires_configuration Examples2.env
              Examples.livekit_up Examples.ctx42 Examples.fresh)
    as (res & evs & Hrun & Hiff).
  rewrite Hrun. simpl. apply Hiff.
  split; [exists "True"; split; reflexivity|].
  split; [exists "recordings"; split; [reflexivity | discriminate]|].
  split; [vm_compute; discriminate|].
  split; [exists "AK" | exists "SK"]; (split; [reflexivity | discriminate]).
Defined.

(** X19 at work: an empty environment selects OpenAI. *)
Lemma default_provider_example :
  selected_integration (Environment.processor_config ∅) Examples.up
  = Some (transcribe_openai (Environment.processor_config ∅) Examples.up).
Proof.
  apply (provider_selection ∅ Examples.up). reflexivity.
Defined.

(** X20 at work: Mars has no time zone; the call goes on in UTC. *)
Lemma timezone_example :
  fst (Entrypoint.entrypoint (Environment.agent_config Examples2.env)
         Examples.livekit_up Examples2.settings Examples2.session
         Examples.ctx42 Examples.fresh)
  = Return tt.
Proof.
  rewrite (timezone_falls_back_to_utc
             (Environment.agent_config Examples2.env) Examples.livekit_up
             Examples2.settings Examples2.session Examples.ctx42
             (Exn "ZoneInfoNotFoundError"
                "'No time zone found with key Mars/Olympus'")
             Examples.fresh eq_refl eq_refl).
  vm_compute. reflexivity.
Defined.


(** X22 at work: the session does not start, the recording has. *)
Lemma session_failure_example :
  exists w',
    Entrypoint.converse (Environment.agent_config Examples2.env)
      Examples.livekit_up Examples2.settings Examples2.session_down
      Examples.ctx42 "noon" "UTC" Examples.fresh
    = (Raise (Exn "RealtimeError" "connection refused"), w')
    /\ length (requests (trace w')) = 1%nat.
Proof.
  destruct (session_failure_leaves_recording
              (Environment.agent_config Examples2.env) Examples.livekit_up
              Examples2.settings Examples2.session_down Examples.ctx42
              "noon" "UTC" "EG_1"
              (Exn "RealtimeError" "connection refused") Examples.fresh
              eq_refl eq_refl eq_refl eq_refl eq_refl eq_refl)
    as (evs & Hrun & Hreq).
  eexists. split; [exact Hrun|].
  simpl. rewrite Hreq. reflexivity.
Defined.
